(** * view_programs.js: the program-list page of the irrigation dashboard

    A shallow embedding of [src/web/view_programs.js] and the properties
    the specification states about it.

    The page is browser glue: it reads JSON from the server, builds DOM
    nodes and reacts to clicks, timer ticks and HTTP responses.  The
    embedding therefore has three layers:

    - [Js]: the JavaScript values JSON can carry, with the coercions the
      script relies on (truthiness, [===], [||], template interpolation);
    - the pure formatters ([formatRecurrence], [buildMonthsGrid],
      [buildZonesGrid]);
    - the page state ([world]): the globals of the script, the part of the
      DOM the script touches, the browser's timers and pending requests,
      and the handlers as functions on that state. *)

From Stdlib Require Import Ascii String ZArith Lia.
From stdpp Require Import gmap strings list pretty.

Open Scope string_scope.
Open Scope list_scope.
Open Scope Z_scope.

(* ===================================================================== *)
(** ** JavaScript values *)
(* ===================================================================== *)

Module Js.

#[local] Set Warnings "-register-all".

(** The values [response.json()] can produce.  Numbers are the integral
    ones (identifiers, day counts, minutes); fractions and NaN are not
    represented.  A string is a sequence of one-unit characters, as the
    ASCII texts of the page are.  An object lists its own properties in
    the engine's enumeration order; lookup takes the first binding of a
    key. *)
Inductive jsval : Type :=
| JUndefined
| JNull
| JBool (b : bool)
| JNum (n : Z)
| JStr (s : string)
| JArr (elems : list jsval)
| JObj (props : list (string * jsval)).

(** What a [throw] carries: the constructor name and [error.message]. *)
Record js_error := mk_error { err_name : string; err_message : string }.

(** The outcome of evaluating code that may throw. *)
Inductive completion (A : Type) : Type :=
| Normal (a : A)
| Throw (e : js_error).
Arguments Normal {A} a.
Arguments Throw {A} e.

Definition bind {A B} (c : completion A) (k : A -> completion B) : completion B :=
  match c with
  | Normal a => k a
  | Throw e => Throw e
  end.

#[global] Instance completion_bind : MBind completion := λ A B k c, bind c k.
#[global] Instance completion_ret : MRet completion := @Normal.

(** [throw new Error(message)] *)
Definition new_Error (message : string) : js_error := mk_error "Error" message.

(** The TypeError the engine raises on a property read from [null] or
    [undefined], on a call of a non-function and on a non-iterable; the
    message texts are V8's. *)
Definition TypeError (message : string) : js_error := mk_error "TypeError" message.

(** ToBoolean *)
Definition truthy (v : jsval) : bool :=
  match v with
  | JUndefined | JNull => false
  | JBool b => b
  | JNum n => negb (n =? 0)
  | JStr s => negb (String.eqb s "")
  | JArr _ | JObj _ => true
  end.

(** [a || b] *)
Definition js_or (a b : jsval) : jsval := if truthy a then a else b.

(** [a && b] *)
Definition js_and (a b : jsval) : jsval := if truthy a then b else a.

(** [a === b].  Arrays and objects compare by reference; every comparison
    in the script has a primitive on one side, so a reference never equals
    the other operand. *)
Definition strict_eq (a b : jsval) : bool :=
  match a, b with
  | JUndefined, JUndefined => true
  | JNull, JNull => true
  | JBool x, JBool y => Bool.eqb x y
  | JNum x, JNum y => x =? y
  | JStr x, JStr y => String.eqb x y
  | _, _ => false
  end.

(** ToString, as template literals and property keys apply it. *)
Fixpoint to_string (v : jsval) : string :=
  match v with
  | JUndefined => "undefined"
  | JNull => "null"
  | JBool true => "true"
  | JBool false => "false"
  | JNum n => pretty n
  | JStr s => s
  | JArr elems =>
      String.concat ","
        (List.map (fun e => match e with
                            | JUndefined | JNull => ""
                            | _ => to_string e
                            end) elems)
  | JObj _ => "[object Object]"
  end.

(** [typeof v === 'object'] *)
Definition typeof_object (v : jsval) : bool :=
  match v with
  | JNull | JArr _ | JObj _ => true
  | _ => false
  end.

(** [Array.isArray(v)] *)
Definition isArray (v : jsval) : bool :=
  match v with JArr _ => true | _ => false end.

(** The elements of an array. *)
Definition elements (v : jsval) : list jsval :=
  match v with JArr elems => elems | _ => [] end.

Fixpoint assoc (k : string) (props : list (string * jsval)) : option jsval :=
  match props with
  | [] => None
  | (k', v) :: rest => if String.eqb k k' then Some v else assoc k rest
  end.

(** The index an array-index key denotes among the first [len] ones. *)
Definition index_of_key (k : string) (len : nat) : option nat :=
  List.find (fun i => String.eqb (pretty i) k) (seq 0 len).

(** The one-character strings of a string, as indexing yields them. *)
Fixpoint chars (s : string) : list string :=
  match s with
  | EmptyString => []
  | String c rest => String c EmptyString :: chars rest
  end.

(** [v[k]] / [v.k] for an own property.  Members inherited from the
    prototypes (methods such as [map]) are not looked up through this
    function: the script's static property names are none of them, and
    method calls are modelled where they occur. *)
Definition get_prop (v : jsval) (k : string) : completion jsval :=
  match v with
  | JUndefined =>
      Throw (TypeError ("Cannot read properties of undefined (reading '" +:+ k +:+ "')"))
  | JNull =>
      Throw (TypeError ("Cannot read properties of null (reading '" +:+ k +:+ "')"))
  | JObj props => Normal (default JUndefined (assoc k props))
  | JArr elems =>
      if String.eqb k "length" then Normal (JNum (Z.of_nat (length elems)))
      else Normal (default JUndefined
                     (i ← index_of_key k (length elems); elems !! i))
  | JStr s =>
      if String.eqb k "length" then Normal (JNum (Z.of_nat (String.length s)))
      else Normal (default JUndefined
                     (i ← index_of_key k (String.length s); JStr <$> chars s !! i))
  | JBool _ | JNum _ => Normal JUndefined
  end.

(** [Object.keys(v)] for a value that is not [null] or [undefined]. *)
Definition object_keys (v : jsval) : list string :=
  match v with
  | JObj props => List.map fst props
  | JArr elems => List.map pretty (seq 0 (length elems))
  | JStr s => List.map pretty (seq 0 (String.length s))
  | _ => []
  end.

Fixpoint assoc_set (k : string) (x : jsval) (props : list (string * jsval))
  : list (string * jsval) :=
  match props with
  | [] => [(k, x)]
  | (k', v) :: rest =>
      if String.eqb k k' then (k, x) :: rest else (k', v) :: assoc_set k x rest
  end.

(** [v.k = x] in sloppy mode for a [v] that is not [null] or [undefined]:
    an object gets or updates the property, an array an element it has, a
    primitive ignores the write.  A named property on an array is not
    represented. *)
Definition set_prop (v : jsval) (k : string) (x : jsval) : jsval :=
  match v with
  | JObj props => JObj (assoc_set k x props)
  | JArr elems =>
      match index_of_key k (length elems) with
      | Some i => JArr (<[i := x]> elems)
      | None => v
      end
  | _ => v
  end.

(** [v + 1] *)
Definition add_one (v : jsval) : jsval :=
  match v with
  | JNum n => JNum (n + 1)
  | JNull | JBool false => JNum 1
  | JBool true => JNum 2
  | JUndefined => JUndefined (* NaN: unreachable, both call sites test for undefined first *)
  | _ => JStr (to_string v +:+ "1")
  end.

(** SameValueZero against a string, the test [Set.prototype.has] applies. *)
Definition same_value_zero_str (s : string) (v : jsval) : bool :=
  match v with JStr x => String.eqb x s | _ => false end.

(** The elements [new Set(v)] iterates over. *)
Definition iterate (v : jsval) : completion (list jsval) :=
  match v with
  | JUndefined | JNull => Normal []
  | JArr elems => Normal elems
  | JStr s => Normal (JStr <$> chars s)
  | JBool _ => Throw (TypeError "boolean is not iterable")
  | JNum _ => Throw (TypeError "number is not iterable")
  | JObj _ => Throw (TypeError "object is not iterable")
  end.

End Js.
Import Js.

(** The double quote of the HTML attributes. *)
Definition dq : string := String "034"%char EmptyString.

(** The line feed of the multi-line templates. *)
Definition nl : string := String "010"%char EmptyString.

Definition spaces (n : nat) : string := String.concat "" (replicate n " ").

(* ===================================================================== *)
(** ** Formatters *)
(* ===================================================================== *)

(** [formatRecurrence(recurrence, interval_days)] *)
Definition formatRecurrence (recurrence interval_days : jsval) : jsval :=
  if negb (truthy recurrence) then JStr "Non impostata"
  else if strict_eq recurrence (JStr "giornaliero") then JStr "Ogni giorno"
  else if strict_eq recurrence (JStr "giorni_alterni") then JStr "Giorni alterni"
  else if strict_eq recurrence (JStr "personalizzata") then
    JStr ("Ogni " +:+ to_string (js_or interval_days (JNum 1)) +:+
          " giorn" +:+ (if strict_eq interval_days (JNum 1) then "o" else "i"))
  else recurrence.

(** The [months] constant of [buildMonthsGrid]. *)
Definition months : list string :=
  [ "Gennaio"; "Febbraio"; "Marzo"; "Aprile";
    "Maggio"; "Giugno"; "Luglio"; "Agosto";
    "Settembre"; "Ottobre"; "Novembre"; "Dicembre" ].

(** [activeMonthsSet.has(month)] on the set built from [elems]. *)
Definition set_has (elems : list jsval) (month : string) : bool :=
  existsb (same_value_zero_str month) elems.

(** The template of one month entry. *)
Definition month_tag (month : string) (isActive : bool) : string :=
  nl +:+ spaces 12 +:+
  "<div class=" +:+ dq +:+ "month-tag " +:+
    (if isActive then "active" else "inactive") +:+ dq +:+ ">" +:+
  nl +:+ spaces 16 +:+ substring 0 3 month +:+
  nl +:+ spaces 12 +:+ "</div>" +:+
  nl +:+ spaces 8.

(** The array [months.map(...)] yields before it is joined. *)
Definition month_tags (activeMonthsSet : list jsval) : list string :=
  List.map (fun month => month_tag month (set_has activeMonthsSet month)) months.

(** [buildMonthsGrid(activeMonths)] *)
Definition buildMonthsGrid (activeMonths : jsval) : completion string :=
  activeMonthsSet ← iterate (js_or activeMonths (JArr []));
  Normal (String.concat "" (month_tags activeMonthsSet)).

(** The text shown for a program without steps. *)
Definition no_zones_tag : string :=
  "<div class=" +:+ dq +:+ "zone-tag" +:+ dq +:+ " style=" +:+ dq +:+
  "grid-column: 1/-1; text-align: center;" +:+ dq +:+
  ">Nessuna zona configurata</div>".

(** The template of one zone entry. *)
Definition zone_tag_html (zoneName duration : string) : string :=
  nl +:+ spaces 12 +:+
  "<div class=" +:+ dq +:+ "zone-tag" +:+ dq +:+ ">" +:+
  nl +:+ spaces 16 +:+ zoneName +:+
  nl +:+ spaces 16 +:+
  "<span class=" +:+ dq +:+ "duration" +:+ dq +:+ ">" +:+ duration +:+ " min</span>" +:+
  nl +:+ spaces 12 +:+ "</div>" +:+
  nl +:+ spaces 8.

(** The callback of [steps.map] in [buildZonesGrid]; the reads from
    [step] cannot throw once it is truthy.  The name is looked up among
    the entries the loader stored; members a plain object inherits are
    not represented. *)
Definition zone_tag (zoneNameMap : gmap string jsval) (step : jsval) : completion string :=
  if negb (truthy step) then Normal ""
  else
    zone_id ← get_prop step "zone_id";
    if strict_eq zone_id JUndefined then Normal ""
    else
      let zoneName :=
        js_or (default JUndefined (zoneNameMap !! to_string zone_id))
              (JStr ("Zona " +:+ to_string (add_one zone_id))) in
      duration ← get_prop step "duration";
      Normal (zone_tag_html (to_string zoneName) (to_string (js_or duration (JNum 0)))).

(** [xs.map(f)] for a callback that may throw: the first throw aborts. *)
Fixpoint map_throwing {A B} (f : A -> completion B) (xs : list A) : completion (list B) :=
  match xs with
  | [] => Normal []
  | x :: rest =>
      y ← f x;
      ys ← map_throwing f rest;
      Normal (y :: ys)
  end.

(** [buildZonesGrid(steps)], reading the global [zoneNameMap].  Only an
    array has a [map] method among the values JSON can carry. *)
Definition buildZonesGrid (zoneNameMap : gmap string jsval) (steps : jsval)
  : completion string :=
  if negb (truthy steps) then Normal no_zones_tag
  else
    len ← get_prop steps "length";
    if strict_eq len (JNum 0) then Normal no_zones_tag
    else match steps with
         | JArr elems =>
             tags ← map_throwing (zone_tag zoneNameMap) elems;
             Normal (String.concat "" tags)
         | _ => Throw (TypeError "steps.map is not a function")
         end.

(* ===================================================================== *)
(** ** The document *)
(* ===================================================================== *)

(** The inline handlers the templates attach, and the click listener of
    the global indicator. *)
Inductive action : Type :=
| CallLoadUserSettingsAndPrograms
| CallLoadPage (page : string)
| CallStartProgram (programId : string)
| CallStopProgram
| CallEditProgram (programId : string)
| CallDeleteProgram (programId : string)
| CallToggleProgramAutomatic (programId : string)
| CallToggleGlobalAutomation.

(** [element.classList]: an ordered set of tokens. *)
Definition classList_contains (c : string) (l : list string) : bool :=
  existsb (String.eqb c) l.

Definition classList_add (c : string) (l : list string) : list string :=
  if classList_contains c l then l else l ++ [c].

Definition classList_remove (c : string) (l : list string) : list string :=
  List.filter (fun x => negb (String.eqb c x)) l.

(** A [<button>] of a card. *)
Record button := mk_button {
  btn_classList : list string;
  btn_disabled : bool;
  btn_onclick : action
}.

(** [.program-header]: the title and the [.active-indicator], of which the
    template writes at most one and [updateProgramsUI] adds one only when
    there is none. *)
Record header := mk_header {
  hdr_title : string;
  hdr_indicator : option string
}.

(** A [.program-card] as the template of [renderProgramCards] lays it out.
    Static text is kept as the interpolated strings; the parts the script
    looks up later are fields.  [card_node] is the identity of the element:
    a closure that kept a reference to one of its buttons finds it through
    it.  The icon and the switch carry the ids [auto-icon-<id>] and
    [auto-switch-<id>] of the card's program id. *)
Record card := mk_card {
  card_node : nat;
  card_classList : list string;
  data_program_id : string;
  program_header : option header;
  info_orario : string;
  info_cadenza : string;
  info_ultima_esecuzione : string;
  months_grid : string;
  zones_grid : string;
  auto_icon_className : string;
  auto_icon_span : string;
  auto_switch_checked : bool;
  btn_start : option button;
  btn_stop : option button;
  btn_edit : button;
  btn_delete : button
}.

(** A child of [#programs-container]. *)
Inductive node : Type :=
| Loading
| EmptyState (h3 p button_label : string) (onclick : action)
| Card (c : card).

(** The [.auto-status] element [addGlobalAutomationStatus] builds. *)
Record auto_status := mk_auto_status {
  st_className : string;
  st_span : string;
  st_click : action;
  st_cursor : string;
  st_title : string
}.

(* ===================================================================== *)
(** ** The browser *)
(* ===================================================================== *)

(** A call of [fetch].  [req_body] is the value handed to
    [JSON.stringify]. *)
Record request := mk_request {
  req_method : string;
  req_url : string;
  req_headers : list (string * string);
  req_body : option jsval
}.

Definition GET (url : string) : request := mk_request "GET" url [] None.

Definition POST (url : string) (body : option jsval) : request :=
  mk_request "POST" url [("Content-Type", "application/json")] body.

(** What [response.json()] settles to. *)
Inductive json_body : Type :=
| JsonOk (v : jsval)
| JsonBad (e : js_error).

(** What a [fetch] settles to: a rejection, or a response with its HTTP
    status and body. *)
Inductive fetch_outcome : Type :=
| NetworkFailure (e : js_error)
| HttpResponse (status : Z) (body : json_body).

(** [response.ok] *)
Definition response_ok (status : Z) : bool := (200 <=? status) && (status <=? 299).

(** The three requests of a load, in the order of the [Promise.all] array. *)
Inductive slot : Type := SettingsSlot | ProgramsSlot | StateSlot.

(** A promise chain waiting for its response(s), with what its closures
    captured. *)
Inductive continuation : Type :=
| KToggleGlobalAutomation (newState : bool)
| KFetchProgramState
| KLoad
| KStartProgram (startBtn : option nat)
| KStopProgram (stopBtns : list nat)
| KDeleteProgram
| KToggleProgramAutomatic (programId : string) (enable : bool).

(** The function a timer calls. *)
Inductive callback : Type := CbFetchProgramState.

Record timer := mk_timer { timer_callback : callback; timer_delay : Z }.

(** The state of the page: the script's globals, the part of the document
    it reads and writes, and the browser facilities it uses.

    - [page_title]: the [.auto-status] children of [.page-title], if the
      page has one;
    - [programs_container]: the children of [#programs-container], if the
      page has one;
    - [intervals]: the active [setInterval] timers by handle;
    - [pagehide_listener]: whether [cleanupViewProgramsPage] listens to
      [pagehide];
    - [navigations]: the calls of the host's [loadPage];
    - [showToast_defined]: [typeof showToast === 'function'], and [toasts]
      the notifications shown;
    - [requests]: every [fetch] issued, oldest first;
    - [pending]: the promise chains not yet settled. *)
Record world := mk_world {
  programStatusInterval : option positive;
  programsData : jsval;
  zoneNameMap : gmap string jsval;
  globalAutomationEnabled : jsval;
  page_title : option (list auto_status);
  programs_container : option (list node);
  next_node : nat;
  pagehide_listener : bool;
  window_fetchProgramState : bool;
  intervals : gmap positive timer;
  next_handle : positive;
  localStorage : gmap string string;
  navigations : list string;
  showToast_defined : bool;
  toasts : list (string * string);
  requests : list request;
  pending : list continuation
}.

Definition set_programStatusInterval (x : option positive) (w : world) : world :=
  mk_world x (programsData w) (zoneNameMap w) (globalAutomationEnabled w)
    (page_title w) (programs_container w) (next_node w) (pagehide_listener w)
    (window_fetchProgramState w) (intervals w) (next_handle w) (localStorage w)
    (navigations w) (showToast_defined w) (toasts w) (requests w) (pending w).

Definition set_programsData (x : jsval) (w : world) : world :=
  mk_world (programStatusInterval w) x (zoneNameMap w) (globalAutomationEnabled w)
    (page_title w) (programs_container w) (next_node w) (pagehide_listener w)
    (window_fetchProgramState w) (intervals w) (next_handle w) (localStorage w)
    (navigations w) (showToast_defined w) (toasts w) (requests w) (pending w).

Definition set_zoneNameMap (x : gmap string jsval) (w : world) : world :=
  mk_world (programStatusInterval w) (programsData w) x (globalAutomationEnabled w)
    (page_title w) (programs_container w) (next_node w) (pagehide_listener w)
    (window_fetchProgramState w) (intervals w) (next_handle w) (localStorage w)
    (navigations w) (showToast_defined w) (toasts w) (requests w) (pending w).

Definition set_globalAutomationEnabled (x : jsval) (w : world) : world :=
  mk_world (programStatusInterval w) (programsData w) (zoneNameMap w) x
    (page_title w) (programs_container w) (next_node w) (pagehide_listener w)
    (window_fetchProgramState w) (intervals w) (next_handle w) (localStorage w)
    (navigations w) (showToast_defined w) (toasts w) (requests w) (pending w).

Definition set_page_title (x : option (list auto_status)) (w : world) : world :=
  mk_world (programStatusInterval w) (programsData w) (zoneNameMap w)
    (globalAutomationEnabled w) x (programs_container w) (next_node w)
    (pagehide_listener w) (window_fetchProgramState w) (intervals w)
    (next_handle w) (localStorage w) (navigations w) (showToast_defined w)
    (toasts w) (requests w) (pending w).

Definition set_programs_container (x : option (list node)) (w : world) : world :=
  mk_world (programStatusInterval w) (programsData w) (zoneNameMap w)
    (globalAutomationEnabled w) (page_title w) x (next_node w)
    (pagehide_listener w) (window_fetchProgramState w) (intervals w)
    (next_handle w) (localStorage w) (navigations w) (showToast_defined w)
    (toasts w) (requests w) (pending w).

Definition set_next_node (x : nat) (w : world) : world :=
  mk_world (programStatusInterval w) (programsData w) (zoneNameMap w)
    (globalAutomationEnabled w) (page_title w) (programs_container w) x
    (pagehide_listener w) (window_fetchProgramState w) (intervals w)
    (next_handle w) (localStorage w) (navigations w) (showToast_defined w)
    (toasts w) (requests w) (pending w).

Definition set_pagehide_listener (x : bool) (w : world) : world :=
  mk_world (programStatusInterval w) (programsData w) (zoneNameMap w)
    (globalAutomationEnabled w) (page_title w) (programs_container w) (next_node w)
    x (window_fetchProgramState w) (intervals w) (next_handle w) (localStorage w)
    (navigations w) (showToast_defined w) (toasts w) (requests w) (pending w).

Definition set_window_fetchProgramState (x : bool) (w : world) : world :=
  mk_world (programStatusInterval w) (programsData w) (zoneNameMap w)
    (globalAutomationEnabled w) (page_title w) (programs_container w) (next_node w)
    (pagehide_listener w) x (intervals w) (next_handle w) (localStorage w)
    (navigations w) (showToast_defined w) (toasts w) (requests w) (pending w).

Definition set_intervals (x : gmap positive timer) (w : world) : world :=
  mk_world (programStatusInterval w) (programsData w) (zoneNameMap w)
    (globalAutomationEnabled w) (page_title w) (programs_container w) (next_node w)
    (pagehide_listener w) (window_fetchProgramState w) x (next_handle w)
    (localStorage w) (navigations w) (showToast_defined w) (toasts w) (requests w)
    (pending w).

Definition set_next_handle (x : positive) (w : world) : world :=
  mk_world (programStatusInterval w) (programsData w) (zoneNameMap w)
    (globalAutomationEnabled w) (page_title w) (programs_container w) (next_node w)
    (pagehide_listener w) (window_fetchProgramState w) (intervals w) x
    (localStorage w) (navigations w) (showToast_defined w) (toasts w) (requests w)
    (pending w).

Definition set_localStorage (x : gmap string string) (w : world) : world :=
  mk_world (programStatusInterval w) (programsData w) (zoneNameMap w)
    (globalAutomationEnabled w) (page_title w) (programs_container w) (next_node w)
    (pagehide_listener w) (window_fetchProgramState w) (intervals w)
    (next_handle w) x (navigations w) (showToast_defined w) (toasts w) (requests w)
    (pending w).

Definition set_navigations (x : list string) (w : world) : world :=
  mk_world (programStatusInterval w) (programsData w) (zoneNameMap w)
    (globalAutomationEnabled w) (page_title w) (programs_container w) (next_node w)
    (pagehide_listener w) (window_fetchProgramState w) (intervals w)
    (next_handle w) (localStorage w) x (showToast_defined w) (toasts w)
    (requests w) (pending w).

Definition set_showToast_defined (x : bool) (w : world) : world :=
  mk_world (programStatusInterval w) (programsData w) (zoneNameMap w)
    (globalAutomationEnabled w) (page_title w) (programs_container w) (next_node w)
    (pagehide_listener w) (window_fetchProgramState w) (intervals w)
    (next_handle w) (localStorage w) (navigations w) x (toasts w) (requests w)
    (pending w).

Definition set_toasts (x : list (string * string)) (w : world) : world :=
  mk_world (programStatusInterval w) (programsData w) (zoneNameMap w)
    (globalAutomationEnabled w) (page_title w) (programs_container w) (next_node w)
    (pagehide_listener w) (window_fetchProgramState w) (intervals w)
    (next_handle w) (localStorage w) (navigations w) (showToast_defined w) x
    (requests w) (pending w).

Definition set_requests (x : list request) (w : world) : world :=
  mk_world (programStatusInterval w) (programsData w) (zoneNameMap w)
    (globalAutomationEnabled w) (page_title w) (programs_container w) (next_node w)
    (pagehide_listener w) (window_fetchProgramState w) (intervals w)
    (next_handle w) (localStorage w) (navigations w) (showToast_defined w)
    (toasts w) x (pending w).

Definition set_pending (x : list continuation) (w : world) : world :=
  mk_world (programStatusInterval w) (programsData w) (zoneNameMap w)
    (globalAutomationEnabled w) (page_title w) (programs_container w) (next_node w)
    (pagehide_listener w) (window_fetchProgramState w) (intervals w)
    (next_handle w) (localStorage w) (navigations w) (showToast_defined w)
    (toasts w) (requests w) x.

(* ===================================================================== *)
(** ** Reading and writing the document *)
(* ===================================================================== *)

Definition set_card_classList (x : list string) (c : card) : card :=
  mk_card (card_node c) x (data_program_id c) (program_header c) (info_orario c)
    (info_cadenza c) (info_ultima_esecuzione c) (months_grid c) (zones_grid c)
    (auto_icon_className c) (auto_icon_span c) (auto_switch_checked c)
    (btn_start c) (btn_stop c) (btn_edit c) (btn_delete c).

Definition set_program_header (x : option header) (c : card) : card :=
  mk_card (card_node c) (card_classList c) (data_program_id c) x (info_orario c)
    (info_cadenza c) (info_ultima_esecuzione c) (months_grid c) (zones_grid c)
    (auto_icon_className c) (auto_icon_span c) (auto_switch_checked c)
    (btn_start c) (btn_stop c) (btn_edit c) (btn_delete c).

Definition set_auto_icon_className (x : string) (c : card) : card :=
  mk_card (card_node c) (card_classList c) (data_program_id c) (program_header c)
    (info_orario c) (info_cadenza c) (info_ultima_esecuzione c) (months_grid c)
    (zones_grid c) x (auto_icon_span c) (auto_switch_checked c) (btn_start c)
    (btn_stop c) (btn_edit c) (btn_delete c).

Definition set_auto_icon_span (x : string) (c : card) : card :=
  mk_card (card_node c) (card_classList c) (data_program_id c) (program_header c)
    (info_orario c) (info_cadenza c) (info_ultima_esecuzione c) (months_grid c)
    (zones_grid c) (auto_icon_className c) x (auto_switch_checked c) (btn_start c)
    (btn_stop c) (btn_edit c) (btn_delete c).

Definition set_auto_switch_checked (x : bool) (c : card) : card :=
  mk_card (card_node c) (card_classList c) (data_program_id c) (program_header c)
    (info_orario c) (info_cadenza c) (info_ultima_esecuzione c) (months_grid c)
    (zones_grid c) (auto_icon_className c) (auto_icon_span c) x (btn_start c)
    (btn_stop c) (btn_edit c) (btn_delete c).

Definition set_btn_start (x : option button) (c : card) : card :=
  mk_card (card_node c) (card_classList c) (data_program_id c) (program_header c)
    (info_orario c) (info_cadenza c) (info_ultima_esecuzione c) (months_grid c)
    (zones_grid c) (auto_icon_className c) (auto_icon_span c)
    (auto_switch_checked c) x (btn_stop c) (btn_edit c) (btn_delete c).

Definition set_btn_stop (x : option button) (c : card) : card :=
  mk_card (card_node c) (card_classList c) (data_program_id c) (program_header c)
    (info_orario c) (info_cadenza c) (info_ultima_esecuzione c) (months_grid c)
    (zones_grid c) (auto_icon_className c) (auto_icon_span c)
    (auto_switch_checked c) (btn_start c) x (btn_edit c) (btn_delete c).

(** [btn.classList.add('disabled'); btn.disabled = true] *)
Definition disable (b : button) : button :=
  mk_button (classList_add "disabled" (btn_classList b)) true (btn_onclick b).

(** [btn.classList.remove('disabled'); btn.disabled = false] *)
Definition enable (b : button) : button :=
  mk_button (classList_remove "disabled" (btn_classList b)) false (btn_onclick b).

Definition as_card (n : node) : option card :=
  match n with Card c => Some c | _ => None end.

(** [document.querySelectorAll('.program-card')], in document order. *)
Definition program_cards (w : world) : list card :=
  omap as_card (default [] (programs_container w)).

Definition on_card (f : card -> card) (n : node) : node :=
  match n with Card c => Card (f c) | _ => n end.

(** Apply [f] to every card of the document. *)
Definition for_each_card (f : card -> card) (w : world) : world :=
  set_programs_container (List.map (on_card f) <$> programs_container w) w.

(** Apply [f] to the card element(s) of identity [n]. *)
Definition at_node (n : nat) (f : card -> card) (c : card) : card :=
  if Nat.eqb (card_node c) n then f c else c.

Definition icon_id (c : card) : string := "auto-icon-" +:+ data_program_id c.
Definition switch_id (c : card) : string := "auto-switch-" +:+ data_program_id c.

(** The elements with an [id]: the container, and per card its icon and,
    after it in document order, its switch. *)
Inductive element : Type :=
| TheContainer
| IconOf (n : nat)
| SwitchOf (n : nat).

Definition ids_of (c : card) : list (string * element) :=
  [(icon_id c, IconOf (card_node c)); (switch_id c, SwitchOf (card_node c))].

Definition document_ids (w : world) : list (string * element) :=
  match programs_container w with
  | None => []
  | Some _ => ("programs-container", TheContainer) :: (program_cards w ≫= ids_of)
  end.

(** [document.getElementById(id)]: the first element of that id. *)
Definition getElementById (id : string) (w : world) : option element :=
  snd <$> List.find (fun p => String.eqb id (fst p)) (document_ids w).

(** [showToast(message, type)] behind its [typeof] guard. *)
Definition showToast (message type : string) (w : world) : world :=
  if showToast_defined w then set_toasts (toasts w ++ [(message, type)]) w else w.

(** [fetch(...)] followed by a promise chain [k]. *)
Definition fetch (r : request) (k : continuation) (w : world) : world :=
  set_pending (pending w ++ [k]) (set_requests (requests w ++ [r]) w).

(** [v.k] where [v] has already been tested truthy or read from: such a
    read cannot throw. *)
Definition field (v : jsval) (k : string) : jsval :=
  match get_prop v k with Normal x => x | Throw _ => JUndefined end.

(* ===================================================================== *)
(** ** The global automation indicator *)
(* ===================================================================== *)

(** [addGlobalAutomationStatus(enabled)] *)
Definition addGlobalAutomationStatus (enabled : jsval) (w : world) : world :=
  let w := set_globalAutomationEnabled enabled w in
  match page_title w with
  | None => w
  | Some statuses =>
      let statusElement :=
        mk_auto_status
          (if truthy enabled then "auto-status on" else "auto-status off")
          ("Automazione globale: " +:+
           (if truthy enabled then "Attiva" else "Disattivata"))
          CallToggleGlobalAutomation "pointer" "Clicca per cambiare" in
      set_page_title (Some (tail statuses ++ [statusElement])) w
  end.

(** [toggleGlobalAutomation()] up to its [fetch]. *)
Definition toggleGlobalAutomation (w : world) : world :=
  let newState := negb (truthy (globalAutomationEnabled w)) in
  fetch (POST "/toggle_automatic_programs" (Some (JObj [("enable", JBool newState)])))
        (KToggleGlobalAutomation newState) w.

(* ===================================================================== *)
(** ** The state poller *)
(* ===================================================================== *)

(** The body of the [forEach] in [updateProgramsUI]. *)
Definition update_card (programRunning currentProgramId : jsval) (c : card) : card :=
  let cardProgramId := JStr (data_program_id c) in
  let isActive := js_and programRunning (JBool (strict_eq cardProgramId currentProgramId)) in
  let c :=
    if truthy isActive then
      let c := set_card_classList (classList_add "active-program" (card_classList c)) c in
      match program_header c with
      | Some h =>
          match hdr_indicator h with
          | None => set_program_header (Some (mk_header (hdr_title h) (Some "In esecuzione"))) c
          | Some _ => c
          end
      | None => c
      end
    else
      let c := set_card_classList (classList_remove "active-program" (card_classList c)) c in
      match program_header c with
      | Some h => set_program_header (Some (mk_header (hdr_title h) None)) c
      | None => c
      end in
  match btn_start c, btn_stop c with
  | Some startBtn, Some stopBtn =>
      if truthy isActive then
        set_btn_stop (Some (enable stopBtn)) (set_btn_start (Some (disable startBtn)) c)
      else if truthy programRunning then
        set_btn_stop (Some (disable stopBtn)) (set_btn_start (Some (disable startBtn)) c)
      else
        set_btn_stop (Some (disable stopBtn)) (set_btn_start (Some (enable startBtn)) c)
  | _, _ => c
  end.

(** [updateProgramsUI(state)] *)
Definition updateProgramsUI (state : jsval) (w : world) : completion world :=
  currentProgramId ← get_prop state "current_program_id";
  programRunning ← get_prop state "program_running";
  Normal (for_each_card (update_card programRunning currentProgramId) w).

(** [fetchProgramState()] up to its [fetch]. *)
Definition fetchProgramState (w : world) : world :=
  fetch (GET "/get_program_state") KFetchProgramState w.

(** The promise chain of [fetchProgramState]: every failure is only
    logged to the console. *)
Definition fetchProgramState_settled (o : fetch_outcome) (w : world) : world :=
  match o with
  | NetworkFailure _ => w
  | HttpResponse status body =>
      if negb (response_ok status) then w
      else match body with
           | JsonBad _ => w
           | JsonOk state =>
               if truthy state && typeof_object state then
                 match updateProgramsUI state w with
                 | Normal w' => w'
                 | Throw _ => w
                 end
               else w
           end
  end.

(** [setInterval(cb, delay)]: a fresh positive handle. *)
Definition setInterval (cb : callback) (delay : Z) (w : world) : positive * world :=
  let h := next_handle w in
  (h, set_next_handle (Pos.succ h)
        (set_intervals (<[h := mk_timer cb delay]> (intervals w)) w)).

(** [clearInterval(h)] *)
Definition clearInterval (h : positive) (w : world) : world :=
  set_intervals (delete h (intervals w)) w.

(** [startProgramStatusPolling()] *)
Definition startProgramStatusPolling (w : world) : world :=
  let w := fetchProgramState w in
  let '(h, w) := setInterval CbFetchProgramState 5000 w in
  set_programStatusInterval (Some h) w.

(** [stopProgramStatusPolling()]; a handle is positive, hence truthy. *)
Definition stopProgramStatusPolling (w : world) : world :=
  match programStatusInterval w with
  | Some h => set_programStatusInterval None (clearInterval h w)
  | None => w
  end.

(** [cleanupViewProgramsPage()] *)
Definition cleanupViewProgramsPage (w : world) : world :=
  stopProgramStatusPolling w.

(* ===================================================================== *)
(** ** The card renderer *)
(* ===================================================================== *)

(** The empty state [renderProgramCards] shows when there is no program. *)
Definition no_programs : node :=
  EmptyState "Nessun programma configurato"
    "Crea il tuo primo programma di irrigazione per iniziare a usare il sistema."
    "Crea Programma" (CallLoadPage "create_program.html").

(** The card the body of the [forEach] in [renderProgramCards] builds for
    a truthy [program], as element [n].  [String(programId)] is
    [programId], a key of [Object.keys]. *)
Definition build_card (n : nat) (zoneNameMap : gmap string jsval)
    (programId : string) (program state : jsval) : completion card :=
  program_running ← get_prop state "program_running";
  let isActive :=
    truthy (js_and program_running
              (JBool (strict_eq (field state "current_program_id") (JStr programId)))) in
  monthsHtml ← buildMonthsGrid (js_or (field program "months") (JArr []));
  zonesHtml ← buildZonesGrid zoneNameMap (js_or (field program "steps") (JArr []));
  let isAutomatic := negb (strict_eq (field program "automatic_enabled") (JBool false)) in
  Normal
    (mk_card n
       ("program-card" :: (if isActive then ["active-program"] else []))
       programId
       (Some (mk_header
                (to_string (js_or (field program "name") (JStr "Programma senza nome")))
                (if isActive then Some "In esecuzione" else None)))
       (to_string (js_or (field program "activation_time") (JStr "Non impostato")))
       (to_string (formatRecurrence (field program "recurrence")
                                    (field program "interval_days")))
       (to_string (js_or (field program "last_run_date") (JStr "Mai eseguito")))
       monthsHtml
       zonesHtml
       (if isAutomatic then "auto-status on" else "auto-status off")
       ("Attivazione automatica: " +:+ (if isAutomatic then "ON" else "OFF"))
       isAutomatic
       (Some (mk_button (["btn"; "btn-start"] ++ (if isActive then ["disabled"] else []))
                        isActive (CallStartProgram programId)))
       (Some (mk_button (["btn"; "btn-stop"] ++ (if negb isActive then ["disabled"] else []))
                        (negb isActive) CallStopProgram))
       (mk_button ["btn"; "btn-edit"] false (CallEditProgram programId))
       (mk_button ["btn"; "btn-delete"] false (CallDeleteProgram programId))).

(** [container.appendChild(programCard)] *)
Definition appendChild (c : card) (w : world) : world :=
  set_programs_container ((fun children => children ++ [Card c]) <$> programs_container w) w.

(** The [forEach] of [renderProgramCards] over the remaining ids.  The
    loop writes [program.id] into [programs], so the object is threaded
    through; a throw leaves the cards appended so far. *)
Fixpoint render_cards (programIds : list string) (state programs : jsval) (w : world)
  : jsval * world * option js_error :=
  match programIds with
  | [] => (programs, w, None)
  | programId :: rest =>
      let program := field programs programId in
      if negb (truthy program) then render_cards rest state programs w
      else
        let programs :=
          if strict_eq (field program "id") JUndefined
          then set_prop programs programId (set_prop program "id" (JStr programId))
          else programs in
        let program := field programs programId in
        match build_card (next_node w) (zoneNameMap w) programId program state with
        | Throw e => (programs, w, Some e)
        | Normal c =>
            render_cards rest state programs
              (appendChild c (set_next_node (S (next_node w)) w))
        end
  end.

(** [renderProgramCards(programs, state)]; returns [programs] as the loop
    left it. *)
Definition renderProgramCards (programs state : jsval) (w : world)
  : jsval * world * option js_error :=
  match programs_container w with
  | None => (programs, w, None)
  | Some _ =>
      let programIds := if truthy programs then object_keys programs else [] in
      if negb (truthy programs) || (length programIds =? 0)%nat then
        (programs, set_programs_container (Some [no_programs]) w, None)
      else
        render_cards programIds state programs (set_programs_container (Some []) w)
  end.

(* ===================================================================== *)
(** ** The data loader *)
(* ===================================================================== *)

(** [loadUserSettingsAndPrograms()] up to [Promise.all]: the loading
    notice and the three [fetch] calls, all issued before any response is
    looked at. *)
Definition loadUserSettingsAndPrograms (w : world) : world :=
  let w := match programs_container w with
           | Some _ => set_programs_container (Some [Loading]) w
           | None => w
           end in
  set_pending (pending w ++ [KLoad])
    (set_requests (requests w ++ [ GET "/data/user_settings.json";
                                   GET "/data/program.json";
                                   GET "/get_program_state" ]) w).

(** The message of the [Error] a slot throws on [!response.ok]. *)
Definition slot_error (s : slot) : string :=
  match s with
  | SettingsSlot => "Errore nel caricamento delle impostazioni utente"
  | ProgramsSlot => "Errore nel caricamento dei programmi"
  | StateSlot => "Errore nel caricamento dello stato del programma"
  end.

(** What the promise of a slot settles to. *)
Definition slot_result (s : slot) (o : fetch_outcome) : completion jsval :=
  match o with
  | NetworkFailure e => Throw e
  | HttpResponse status body =>
      if negb (response_ok status) then Throw (new_Error (slot_error s))
      else match body with
           | JsonOk v => Normal v
           | JsonBad e => Throw e
           end
  end.

Fixpoint first_rejection (order : list slot) (result : slot -> completion jsval)
  : option js_error :=
  match order with
  | [] => None
  | s :: rest =>
      match result s with
      | Throw e => Some e
      | Normal _ => first_rejection rest result
      end
  end.

(** [Promise.all] over the three slots.  [order] lists the slots in the
    order their promises settle (slots it leaves out settle afterwards, in
    array order): the first rejection rejects the whole, otherwise the
    three values fulfil it. *)
Definition promise_all (order : list slot) (result : slot -> completion jsval)
  : completion (jsval * jsval * jsval) :=
  match first_rejection (order ++ [SettingsSlot; ProgramsSlot; StateSlot]) result with
  | Some e => Throw e
  | None =>
      settings ← result SettingsSlot;
      programs ← result ProgramsSlot;
      state ← result StateSlot;
      Normal (settings, programs, state)
  end.

(** The callback of [settings.zones.forEach]. *)
Definition add_zone (zoneNameMap : gmap string jsval) (zone : jsval) : gmap string jsval :=
  if truthy zone && negb (strict_eq (field zone "id") JUndefined) then
    <[ to_string (field zone "id") :=
         js_or (field zone "name")
               (JStr ("Zona " +:+ to_string (add_one (field zone "id")))) ]> zoneNameMap
  else zoneNameMap.

(** The [.then] of the load.  [programsData] is the object handed to
    [renderProgramCards], so what the renderer writes into it shows in the
    global. *)
Definition load_then (settings programs state : jsval) (w : world)
  : world * option js_error :=
  match get_prop settings "automatic_programs_enabled" with
  | Throw e => (w, Some e)
  | Normal automatic_programs_enabled =>
      let globalAutomation := js_or automatic_programs_enabled (JBool false) in
      let w := addGlobalAutomationStatus globalAutomation w in
      let zones := field settings "zones" in
      let w := set_zoneNameMap
                 (if truthy zones && isArray zones
                  then foldl add_zone ∅ (elements zones)
                  else ∅) w in
      let w := set_programsData (js_or programs (JObj [])) w in
      let '(programs', w, thrown) := renderProgramCards (programsData w) state w in
      (set_programsData programs' w, thrown)
  end.

(** The [.catch] of the load.  [programsContainer], looked up when the
    load started, is the container of the page. *)
Definition load_catch (error : js_error) (w : world) : world :=
  let w := showToast "Errore nel caricamento dei dati" "error" w in
  match programs_container w with
  | Some _ =>
      set_programs_container
        (Some [EmptyState "Errore nel caricamento dei programmi" (err_message error)
                 "Riprova" CallLoadUserSettingsAndPrograms]) w
  | None => w
  end.

(** The promise chain of [loadUserSettingsAndPrograms]. *)
Definition load_settled (order : list slot)
    (settings programs state : fetch_outcome) (w : world) : world :=
  let result s :=
    match s with
    | SettingsSlot => slot_result s settings
    | ProgramsSlot => slot_result s programs
    | StateSlot => slot_result s state
    end in
  match promise_all order result with
  | Throw e => load_catch e w
  | Normal (settings, programs, state) =>
      match load_then settings programs state w with
      | (w, Some e) => load_catch e w
      | (w, None) => w
      end
  end.

(* ===================================================================== *)
(** ** The action dispatchers *)
(* ===================================================================== *)

(** [response.json()] at the head of an action's promise chain; the HTTP
    status is not looked at. *)
Definition response_json (o : fetch_outcome) : completion jsval :=
  match o with
  | NetworkFailure e => Throw e
  | HttpResponse _ (JsonOk data) => Normal data
  | HttpResponse _ (JsonBad e) => Throw e
  end.

(** The head of every [.then(data => ...)]: [data.success], which throws
    on a [null] body. *)
Definition read_success (o : fetch_outcome) : completion (jsval * bool) :=
  data ← response_json o;
  success ← get_prop data "success";
  Normal (data, truthy success).

(** [data.error || 'Errore sconosciuto'] interpolated in a message. *)
Definition error_text (data : jsval) : string :=
  to_string (js_or (field data "error") (JStr "Errore sconosciuto")).

(** The promise chain of [toggleGlobalAutomation]. *)
Definition toggleGlobalAutomation_settled (newState : bool) (o : fetch_outcome)
    (w : world) : world :=
  match read_success o with
  | Normal (data, true) =>
      let w := showToast ("Automazione globale " +:+
                          (if newState then "attivata" else "disattivata") +:+
                          " con successo") "success" w in
      addGlobalAutomationStatus (JBool newState) w
  | Normal (data, false) =>
      showToast ("Errore: " +:+ error_text data) "error" w
  | Throw _ =>
      showToast "Errore di rete" "error" w
  end.

Definition has_start (c : card) : bool :=
  match btn_start c with Some _ => true | None => false end.

Definition has_stop (c : card) : bool :=
  match btn_stop c with Some _ => true | None => false end.

(** [document.querySelector('.program-card[data-program-id=<id>] .btn-start')]:
    the start button of the first card of that id that has one, named by
    its card.  Program ids are the keys the server assigns; one with a
    quote or a backslash would survive neither the inline handlers nor
    this selector and is not considered. *)
Definition query_start_btn (programId : string) (w : world) : option nat :=
  card_node <$>
    List.find (fun c => String.eqb (data_program_id c) programId && has_start c)
              (program_cards w).

(** Apply [f] to the start button of a card, if it has one. *)
Definition on_start_btn (f : button -> button) (c : card) : card :=
  set_btn_start (f <$> btn_start c) c.

(** Apply [f] to the stop button of a card, if it has one. *)
Definition on_stop_btn (f : button -> button) (c : card) : card :=
  set_btn_stop (f <$> btn_stop c) c.

(** Write to the start button a closure holds. *)
Definition with_start_btn (startBtn : option nat) (f : button -> button) (w : world)
  : world :=
  match startBtn with
  | Some n => for_each_card (at_node n (on_start_btn f)) w
  | None => w
  end.

(** [startProgram(programId)] up to its [fetch]. *)
Definition startProgram (programId : string) (w : world) : world :=
  let startBtn := query_start_btn programId w in
  let w := with_start_btn startBtn disable w in
  fetch (POST "/start_program" (Some (JObj [("program_id", JStr programId)])))
        (KStartProgram startBtn) w.

(** The promise chain of [startProgram]. *)
Definition startProgram_settled (startBtn : option nat) (o : fetch_outcome)
    (w : world) : world :=
  match read_success o with
  | Normal (data, true) =>
      let w := showToast "Programma avviato con successo" "success" w in
      fetchProgramState w
  | Normal (data, false) =>
      let w := showToast ("Errore nell'avvio del programma: " +:+ error_text data)
                         "error" w in
      with_start_btn startBtn enable w
  | Throw _ =>
      let w := showToast "Errore di rete durante l'avvio del programma" "error" w in
      with_start_btn startBtn enable w
  end.

(** [document.querySelectorAll('.btn-stop')], each named by its card. *)
Definition query_stop_btns (w : world) : list nat :=
  card_node <$> List.filter has_stop (program_cards w).

(** [stopBtns.forEach(btn => ...)] *)
Definition with_stop_btns (stopBtns : list nat) (f : button -> button) (w : world) : world :=
  foldl (fun w n => for_each_card (at_node n (on_stop_btn f)) w) w stopBtns.

(** [stopProgram()] up to its [fetch]. *)
Definition stopProgram (w : world) : world :=
  let stopBtns := query_stop_btns w in
  let w := with_stop_btns stopBtns disable w in
  fetch (POST "/stop_program" None) (KStopProgram stopBtns) w.

(** The promise chain of [stopProgram]. *)
Definition stopProgram_settled (stopBtns : list nat) (o : fetch_outcome)
    (w : world) : world :=
  match read_success o with
  | Normal (data, true) =>
      let w := showToast "Programma arrestato con successo" "success" w in
      fetchProgramState w
  | Normal (data, false) =>
      let w := showToast ("Errore nell'arresto del programma: " +:+ error_text data)
                         "error" w in
      with_stop_btns stopBtns enable w
  | Throw _ =>
      let w := showToast "Errore di rete durante l'arresto del programma" "error" w in
      with_stop_btns stopBtns enable w
  end.

(** [loadPage(page)], a function of the hosting page. *)
Definition loadPage (page : string) (w : world) : world :=
  set_navigations (navigations w ++ [page]) w.

(** [editProgram(programId)] *)
Definition editProgram (programId : string) (w : world) : world :=
  let w := set_localStorage (<["editProgramId" := programId]> (localStorage w)) w in
  loadPage "modify_program.html" w.

(** [deleteProgram(programId)] up to its [fetch]; [confirmed] is what the
    user answers to [confirm(...)]. *)
Definition deleteProgram (confirmed : bool) (programId : string) (w : world) : world :=
  if negb confirmed then w
  else fetch (POST "/delete_program" (Some (JObj [("id", JStr programId)])))
             KDeleteProgram w.

(** The promise chain of [deleteProgram]. *)
Definition deleteProgram_settled (o : fetch_outcome) (w : world) : world :=
  match read_success o with
  | Normal (data, true) =>
      let w := showToast "Programma eliminato con successo" "success" w in
      loadUserSettingsAndPrograms w
  | Normal (data, false) =>
      showToast ("Errore nell'eliminazione del programma: " +:+ error_text data) "error" w
  | Throw _ =>
      showToast "Errore di rete durante l'eliminazione del programma" "error" w
  end.

(** [toggleProgramAutomatic(programId, enable)] up to its [fetch]. *)
Definition toggleProgramAutomatic (programId : string) (enable : bool) (w : world) : world :=
  fetch (POST "/toggle_program_automatic"
           (Some (JObj [("program_id", JStr programId); ("enable", JBool enable)])))
        (KToggleProgramAutomatic programId enable) w.

(** [autoSwitch = document.getElementById(id); if (autoSwitch)
    autoSwitch.checked = value].  An element of the id [auto-switch-...]
    is a switch (lemma [getElementById_kind]). *)
Definition set_checked (id : string) (value : bool) (w : world) : world :=
  match getElementById id w with
  | Some (SwitchOf n) => for_each_card (at_node n (set_auto_switch_checked value)) w
  | _ => w
  end.

(** The update of the icon in the success branch.  An element of the id
    [auto-icon-...] is an icon (lemma [getElementById_kind]), whose [span]
    exists. *)
Definition set_icon (id : string) (enable : bool) (w : world) : world :=
  match getElementById id w with
  | Some (IconOf n) =>
      for_each_card
        (at_node n (fun c =>
           set_auto_icon_span ("Attivazione automatica: " +:+ (if enable then "ON" else "OFF"))
             (set_auto_icon_className
                (if enable then "auto-status on" else "auto-status off") c))) w
  | _ => w
  end.

(** The promise chain of [toggleProgramAutomatic]. *)
Definition toggleProgramAutomatic_settled (programId : string) (enable : bool)
    (o : fetch_outcome) (w : world) : world :=
  match read_success o with
  | Normal (data, true) =>
      let w := showToast ("Automazione del programma " +:+
                          (if enable then "attivata" else "disattivata") +:+
                          " con successo") "success" w in
      let w := set_checked ("auto-switch-" +:+ programId) enable w in
      let w := set_icon ("auto-icon-" +:+ programId) enable w in
      if truthy (field (programsData w) programId) then
        set_programsData
          (set_prop (programsData w) programId
             (set_prop (field (programsData w) programId) "automatic_enabled" (JBool enable)))
          w
      else w
  | Normal (data, false) =>
      let w := showToast ("Errore: " +:+ error_text data) "error" w in
      set_checked ("auto-switch-" +:+ programId) (negb enable) w
  | Throw _ =>
      let w := showToast "Errore di rete" "error" w in
      set_checked ("auto-switch-" +:+ programId) (negb enable) w
  end.

(* ===================================================================== *)
(** ** The page as an event-driven system *)
(* ===================================================================== *)

(** [initializeViewProgramsPage()] *)
Definition initializeViewProgramsPage (w : world) : world :=
  let w := loadUserSettingsAndPrograms w in
  let w := startProgramStatusPolling w in
  let w := set_pagehide_listener true w in
  set_window_fetchProgramState true w.

(** What the browser hands to a waiting promise chain: one outcome, or for
    a load the three outcomes and the order they arrived in. *)
Inductive delivery : Type :=
| One (o : fetch_outcome)
| Three (order : list slot) (settings programs state : fetch_outcome).

(** Run the promise chain [k] on what was delivered; [None] when the
    delivery is not of the kind the chain waits for. *)
Definition settle (k : continuation) (d : delivery) (w : world) : option world :=
  match k, d with
  | KToggleGlobalAutomation newState, One o =>
      Some (toggleGlobalAutomation_settled newState o w)
  | KFetchProgramState, One o => Some (fetchProgramState_settled o w)
  | KLoad, Three order s p st => Some (load_settled order s p st w)
  | KStartProgram startBtn, One o => Some (startProgram_settled startBtn o w)
  | KStopProgram stopBtns, One o => Some (stopProgram_settled stopBtns o w)
  | KDeleteProgram, One o => Some (deleteProgram_settled o w)
  | KToggleProgramAutomatic programId enable, One o =>
      Some (toggleProgramAutomatic_settled programId enable o w)
  | _, _ => None
  end.

(** Run an inline handler; [answer] is the user's answer to [confirm] for
    a deletion and [this.checked] for a switch. *)
Definition call (a : action) (answer : bool) (w : world) : world :=
  match a with
  | CallLoadUserSettingsAndPrograms => loadUserSettingsAndPrograms w
  | CallLoadPage page => loadPage page w
  | CallStartProgram programId => startProgram programId w
  | CallStopProgram => stopProgram w
  | CallEditProgram programId => editProgram programId w
  | CallDeleteProgram programId => deleteProgram answer programId w
  | CallToggleProgramAutomatic programId => toggleProgramAutomatic programId answer w
  | CallToggleGlobalAutomation => toggleGlobalAutomation w
  end.

(** What the event loop can run next. *)
Inductive event : Type :=
| DOMContentLoaded
| PageHide
| TimerFires (h : positive)
| Settles (i : nat) (d : delivery)
| Calls (a : action) (answer : bool).

(** One turn of the event loop.  A timer that is not active does not
    fire, and only a waiting chain settles, on a delivery of its kind. *)
Definition handle (e : event) (w : world) : world :=
  match e with
  | DOMContentLoaded => initializeViewProgramsPage w
  | PageHide => if pagehide_listener w then cleanupViewProgramsPage w else w
  | TimerFires h =>
      match intervals w !! h with
      | Some (mk_timer CbFetchProgramState _) => fetchProgramState w
      | None => w
      end
  | Settles i d =>
      match pending w !! i with
      | Some k => default w (settle k d (set_pending (delete i (pending w)) w))
      | None => w
      end
  | Calls a answer => call a answer w
  end.

(** A run of the event loop. *)
Definition run (es : list event) (w : world) : world :=
  foldl (fun w e => handle e w) w es.

(* ===================================================================== *)
(** ** What the page shows *)
(* ===================================================================== *)

(** The card carries the active-program styling. *)
Definition styled_active (c : card) : bool :=
  classList_contains "active-program" (card_classList c).

(** The card shows an [.active-indicator]. *)
Definition shows_indicator (c : card) : bool :=
  match program_header c with
  | Some h => match hdr_indicator h with Some _ => true | None => false end
  | None => false
  end.

(** A button is off: the [disabled] property and the [disabled] class. *)
Definition is_disabled (b : button) : bool :=
  btn_disabled b && classList_contains "disabled" (btn_classList b).

(** A button is on: neither the property nor the class. *)
Definition is_enabled (b : button) : bool :=
  negb (btn_disabled b) && negb (classList_contains "disabled" (btn_classList b)).

(** [programRunning && cardProgramId === currentProgramId], as a truth
    value. *)
Definition card_is_active (programRunning currentProgramId : jsval) (c : card) : bool :=
  truthy programRunning && strict_eq (JStr (data_program_id c)) currentProgramId.

(** [state.program_running] is truthy and [state.current_program_id] is
    the string [programId]. *)
Definition is_running (state : jsval) (programId : string) : bool :=
  truthy (field state "program_running") &&
  strict_eq (JStr programId) (field state "current_program_id").

(** [document.getElementById(id).checked] when that element is a switch. *)
Definition switch_checked (id : string) (w : world) : option bool :=
  match getElementById id w with
  | Some (SwitchOf n) =>
      auto_switch_checked <$> List.find (fun c => Nat.eqb (card_node c) n) (program_cards w)
  | _ => None
  end.

(** The response did not report success: [data.success] is falsy, or the
    chain was rejected (network failure, a body that is not JSON, a
    [null] body). *)
Definition unsuccessful (o : fetch_outcome) : bool :=
  match read_success o with
  | Normal (_, true) => false
  | _ => true
  end.

(** The HTTP status of a response is not a successful one. *)
Definition http_failed (o : fetch_outcome) : bool :=
  match o with
  | HttpResponse status _ => negb (response_ok status)
  | NetworkFailure _ => false
  end.

(** The page when the script has just been evaluated: the globals hold
    their declared initial values, nothing is pending, no timer runs.
    The arguments say whether the page has a [.page-title] and a
    [#programs-container] (which the HTML of the page fills with the
    loading notice), and whether the host defines [showToast]. *)
Definition script_loaded (has_title has_container has_showToast : bool) : world :=
  mk_world None (JObj []) ∅ (JBool false)
    (if has_title then Some [] else None)
    (if has_container then Some [Loading] else None)
    0%nat false false ∅ 1%positive ∅ [] has_showToast [] [] [].

(** The card has the parts the template gives every card: the header and
    the start and stop buttons. *)
Definition card_shaped (c : card) : bool :=
  match program_header c with Some _ => true | None => false end
  && has_start c && has_stop c.

(** Every card of the document has them. *)
Definition page_shaped (w : world) : Prop :=
  Forall (fun c => card_shaped c = true) (program_cards w).

(** The states the page can be in: the script has just been evaluated,
    and then the event loop runs. *)
Inductive reachable : world -> Prop :=
| reachable_loaded has_title has_container has_showToast :
    reachable (script_loaded has_title has_container has_showToast)
| reachable_handle e w :
    reachable w -> reachable (handle e w).

(* ===================================================================== *)
(** ** Counting tags in the generated HTML *)
(* ===================================================================== *)

(** The number of positions of [s] at which [pat] starts. *)
Fixpoint occurrences (pat s : string) : nat :=
  ((if String.prefix pat s then 1 else 0) +
   match s with
   | EmptyString => 0
   | String _ rest => occurrences pat rest
   end)%nat.

(** The opening tag of a month entry, up to its state. *)
Definition month_tag_open : string := "<div class=" +:+ dq +:+ "month-tag ".

(** The opening tag of an entry tagged active. *)
Definition month_tag_active : string := month_tag_open +:+ "active" +:+ dq +:+ ">".

(** No proper beginning of [pat] ends [a]: an occurrence of [pat] in
    [a ++ b] lies in [a] or in [b]. *)
Fixpoint no_straddle (pat a : string) : bool :=
  match a with
  | EmptyString => true
  | String _ rest =>
      ((String.length pat <=? String.length a)%nat || negb (String.prefix a pat))
      && no_straddle pat rest
  end.

(* ===================================================================== *)
(** ** The poller, observed *)
(* ===================================================================== *)

(** The event is the page initialisation. *)
Definition is_init (e : event) : bool :=
  match e with DOMContentLoaded => true | _ => false end.

(** The timer [startProgramStatusPolling] registers. *)
Definition poll_timer : timer := mk_timer CbFetchProgramState 5000.

(** What decides whether the poller runs: the active timers, the handle
    the script keeps, and the teardown listener. *)
Definition polling_of (w : world) : gmap positive timer * option positive * bool :=
  (intervals w, programStatusInterval w, pagehide_listener w).

(** No event of the run is the page initialisation. *)
Definition no_init (es : list event) : bool := forallb (fun e => negb (is_init e)) es.

(** The poller as [initializeViewProgramsPage] leaves it and as the
    teardown can change it: the listener is installed, and either the one
    timer runs and the script holds its handle, or none runs and the
    script holds [null]. *)
Definition poller_started_or_stopped (w : world) : Prop :=
  pagehide_listener w = true /\
  ((exists h, programStatusInterval w = Some h /\ intervals w = {[ h := poll_timer ]}) \/
   (programStatusInterval w = None /\ intervals w = ∅)).

(* ===================================================================== *)
(** ** A sample page *)
(* ===================================================================== *)

Definition sample_settings : jsval :=
  JObj [ ("automatic_programs_enabled", JBool true);
         ("zones", JArr [ JObj [("id", JNum 0); ("name", JStr "Orto")];
                          JObj [("id", JNum 1)] ]) ].

Definition sample_programs : jsval :=
  JObj [ ("1", JObj [ ("name", JStr "Mattina");
                      ("activation_time", JStr "06:30");
                      ("recurrence", JStr "giornaliero");
                      ("months", JArr [JStr "Giugno"; JStr "Luglio"]);
                      ("steps", JArr [ JObj [("zone_id", JNum 0); ("duration", JNum 10)];
                                       JObj [("zone_id", JNum 1); ("duration", JNum 5)] ]) ]);
         ("2", JObj [ ("name", JStr "Sera");
                      ("recurrence", JStr "personalizzata");
                      ("interval_days", JNum 3);
                      ("automatic_enabled", JBool false);
                      ("steps", JArr []) ]) ].

(** Program 1 runs. *)
Definition sample_state_1 : list (string * jsval) :=
  [("program_running", JBool true); ("current_program_id", JStr "1")].

(** Program 2 runs. *)
Definition sample_state_2 : list (string * jsval) :=
  [("program_running", JBool true); ("current_program_id", JStr "2")].

(** Nothing runs. *)
Definition sample_state_idle : list (string * jsval) :=
  [("program_running", JBool false); ("current_program_id", JNull)].

Definition ok_response (v : jsval) : fetch_outcome := HttpResponse 200 (JsonOk v).

(** The sample page after [DOMContentLoaded] and a successful load with
    program 1 running: two cards. *)
Definition sample_page : world :=
  run [ DOMContentLoaded;
        Settles 0 (Three [SettingsSlot; ProgramsSlot; StateSlot]
                     (ok_response sample_settings)
                     (ok_response sample_programs)
                     (ok_response (JObj sample_state_1))) ]
      (script_loaded true true true).

(* ===================================================================== *)
(** ** Facts about the value layer *)
(* ===================================================================== *)

Lemma truthy_js_and a b : truthy (js_and a b) = truthy a && truthy b.
Proof. unfold js_and. destruct (truthy a) eqn:E; simpl; auto. Qed.

Lemma strict_eq_JStr_l s v : strict_eq (JStr s) v = true <-> v = JStr s.
Proof.
  destruct v; simpl; try (split; [discriminate | discriminate]).
  rewrite String.eqb_eq. split; congruence.
Qed.

Lemma strict_eq_JNum_l n v : strict_eq v (JNum n) = true <-> v = JNum n.
Proof.
  destruct v; simpl; try (split; [discriminate | discriminate]).
  rewrite Z.eqb_eq. split; congruence.
Qed.

Lemma get_prop_object props k :
  get_prop (JObj props) k = Normal (default JUndefined (assoc k props)).
Proof. reflexivity. Qed.

Lemma get_prop_truthy v k : truthy v = true -> get_prop v k = Normal (field v k).
Proof.
  unfold field. destruct v; simpl; try discriminate; intros _;
    repeat match goal with |- context [if ?b then _ else _] => destruct b end;
    reflexivity.
Qed.

(* ===================================================================== *)
(** ** Recurrence text *)
(* ===================================================================== *)



(** C10. For 'personalizzata' a falsy [interval_days] (absent, [null],
    zero, the empty string, [false]) shows the defaulted count 1 with the
    plural noun: 'Ogni 1 giorni'. *)
Theorem formatRecurrence_falsy_interval interval_days :
  truthy interval_days = false ->
  formatRecurrence (JStr "personalizzata") interval_days = JStr "Ogni 1 giorni".
Proof.
  intros Hf. unfold formatRecurrence, js_or. rewrite Hf. simpl.
  destruct (strict_eq interval_days (JNum 1)) eqn:E; [|reflexivity].
  apply strict_eq_JNum_l in E. subst. discriminate.
Qed.

Lemma formatRecurrence_falsy_interval_witness :
  formatRecurrence (JStr "personalizzata") JUndefined = JStr "Ogni 1 giorni" /\
  formatRecurrence (JStr "personalizzata") (JNum 0) = JStr "Ogni 1 giorni" /\
  formatRecurrence (JStr "personalizzata") JNull = JStr "Ogni 1 giorni".
Proof.
  split; [|split].
  - apply (formatRecurrence_falsy_interval JUndefined). reflexivity.
  - apply (formatRecurrence_falsy_interval (JNum 0)). reflexivity.
  - apply (formatRecurrence_falsy_interval JNull). reflexivity.
Defined.

(* ===================================================================== *)
(** ** Month grid *)
(* ===================================================================== *)

Lemma set_has_In elems month : set_has elems month = true <-> In (JStr month) elems.
Proof.
  unfold set_has. rewrite existsb_exists. split.
  - intros (v & Hin & Hv). destruct v; simpl in Hv; try discriminate.
    apply String.eqb_eq in Hv. subst. exact Hin.
  - intros Hin. exists (JStr month). split; [exact Hin|]. simpl. apply String.eqb_refl.
Qed.

Lemma month_tags_length elems : length (month_tags elems) = 12%nat.
Proof. reflexivity. Qed.

Lemma month_tags_lookup elems i month :
  months !! i = Some month ->
  month_tags elems !! i = Some (month_tag month (set_has elems month)).
Proof.
  intros Hm. unfold month_tags.
  change (List.map ?f ?l) with (f <$> l).
  rewrite list_lookup_fmap, Hm. reflexivity.
Qed.

Lemma prefix_app pat : forall u b,
  (String.length pat <=? String.length u)%nat || negb (String.prefix u pat) = true ->
  String.prefix pat (u +:+ b) = String.prefix pat u.
Proof.
  induction pat as [|p pat IH]; intros u b H;
    [destruct u; [destruct b|]; reflexivity|].
  destruct u as [|c u]; [discriminate|].
  change (String c u +:+ b) with (String c (u +:+ b)).
  cbn [String.prefix String.length Nat.leb] in *.
  destruct (ascii_dec p c) as [->|Hne]; [|reflexivity].
  apply IH. destruct (ascii_dec c c) as [_|Hcc]; [exact H | contradiction].
Qed.

Lemma occurrences_app pat a : forall b,
  pat <> "" -> no_straddle pat a = true ->
  occurrences pat (a +:+ b) = (occurrences pat a + occurrences pat b)%nat.
Proof.
  induction a as [|c a IH]; intros b Hpat Hns.
  - destruct pat; [contradiction|]. reflexivity.
  - cbn [no_straddle] in Hns. apply andb_true_iff in Hns as [Hhere Hrest].
    change (String c a +:+ b) with (String c (a +:+ b)).
    cbn [occurrences].
    change (String c (a +:+ b)) with (String c a +:+ b).
    rewrite (prefix_app pat (String c a) b Hhere), (IH b Hpat Hrest). lia.
Qed.

Lemma concat_cons t ts : String.concat "" (t :: ts) = t +:+ String.concat "" ts.
Proof.
  destruct ts as [|t' ts]; [|reflexivity].
  cbn [String.concat]. induction t as [|c t IH]; [reflexivity|].
  change (String c t +:+ "") with (String c (t +:+ "")). f_equal. exact IH.
Qed.

Lemma occurrences_concat pat (tags : list string) :
  pat <> "" -> Forall (fun t => no_straddle pat t = true) tags ->
  occurrences pat (String.concat "" tags) = sum_list (occurrences pat <$> tags).
Proof.
  intros Hpat Htags. induction Htags as [|t ts Ht Hts IH].
  - destruct pat; [contradiction|]. reflexivity.
  - rewrite concat_cons, occurrences_app, IH by assumption. reflexivity.
Qed.

(** Each month entry holds one opening tag, an active one when tagged
    active, and ends without a beginning of either. *)
Lemma month_tag_occurrences month isActive :
  In month months ->
  no_straddle month_tag_open (month_tag month isActive) = true /\
  no_straddle month_tag_active (month_tag month isActive) = true /\
  occurrences month_tag_open (month_tag month isActive) = 1%nat /\
  occurrences month_tag_active (month_tag month isActive) = (if isActive then 1 else 0)%nat.
Proof.
  intros Hin.
  assert (forallb (fun month =>
            forallb (fun isActive =>
              no_straddle month_tag_open (month_tag month isActive) &&
              no_straddle month_tag_active (month_tag month isActive) &&
              Nat.eqb (occurrences month_tag_open (month_tag month isActive)) 1 &&
              Nat.eqb (occurrences month_tag_active (month_tag month isActive))
                      (if isActive then 1 else 0))
              [true; false]) months = true) as Hall by (vm_compute; reflexivity).
  rewrite forallb_forall in Hall. specialize (Hall month Hin).
  rewrite forallb_forall in Hall.
  assert (In isActive [true; false]) as Hb by (destruct isActive; simpl; auto).
  specialize (Hall isActive Hb).
  repeat (apply andb_true_iff in Hall as [Hall ?]).
  repeat match goal with H : Nat.eqb _ _ = true |- _ => apply Nat.eqb_eq in H end.
  auto.
Qed.

(** The returned HTML has twelve opening tags of month entries, as many
    of them active as months of the calendar are in the set. *)
Lemma month_tags_occurrences elems :
  occurrences month_tag_open (String.concat "" (month_tags elems)) = 12%nat /\
  occurrences month_tag_active (String.concat "" (month_tags elems))
  = length (List.filter (set_has elems) months).
Proof.
  unfold month_tags.
  assert (forall ms, (forall m, In m ms -> In m months) ->
            let tags := List.map (fun month => month_tag month (set_has elems month)) ms in
            Forall (fun t => no_straddle month_tag_open t = true) tags /\
            Forall (fun t => no_straddle month_tag_active t = true) tags /\
            sum_list (occurrences month_tag_open <$> tags) = length ms /\
            sum_list (occurrences month_tag_active <$> tags)
            = length (List.filter (set_has elems) ms)) as Hms.
  { induction ms as [|m ms IH]; intros Hsub tags; [repeat split; constructor|].
    destruct IH as (IH1 & IH2 & IH3 & IH4); [intros m' Hm'; apply Hsub; right; exact Hm'|].
    destruct (month_tag_occurrences m (set_has elems m)) as (H1 & H2 & H3 & H4);
      [apply Hsub; left; reflexivity|].
    subst tags. cbn [List.map fmap list_fmap sum_list List.filter].
    split; [constructor; assumption|]. split; [constructor; assumption|].
    rewrite H3, H4.
    split; [cbn [sum_list_with length]; f_equal; exact IH3|].
    cbn [sum_list_with]. rewrite IH4. destruct (set_has elems m); reflexivity. }
  destruct (Hms months (fun m H => H)) as (H1 & H2 & H3 & H4).
  rewrite !occurrences_concat by (assumption || discriminate).
  rewrite H3, H4. split; reflexivity.
Qed.



(* ===================================================================== *)
(** ** Class lists and buttons *)
(* ===================================================================== *)

Lemma classList_contains_app c l1 l2 :
  classList_contains c (l1 ++ l2) = classList_contains c l1 || classList_contains c l2.
Proof. apply existsb_app. Qed.

Lemma classList_contains_add c l : classList_contains c (classList_add c l) = true.
Proof.
  unfold classList_add. destruct (classList_contains c l) eqn:E; [exact E|].
  rewrite classList_contains_app, E. simpl. rewrite String.eqb_refl. reflexivity.
Qed.

Lemma classList_contains_remove c l : classList_contains c (classList_remove c l) = false.
Proof.
  unfold classList_contains, classList_remove.
  induction l as [|x l IH]; simpl; [reflexivity|].
  destruct (String.eqb c x) eqn:E; simpl; [exact IH|].
  rewrite E. exact IH.
Qed.

Lemma is_disabled_disable b : is_disabled (disable b) = true.
Proof. unfold is_disabled, disable. simpl. apply classList_contains_add. Qed.

Lemma is_enabled_enable b : is_enabled (enable b) = true.
Proof. unfold is_enabled, enable. simpl. rewrite classList_contains_remove. reflexivity. Qed.

(* ===================================================================== *)
(** ** Cards of the document *)
(* ===================================================================== *)

Lemma omap_as_card_map f (children : list node) :
  omap as_card (List.map (on_card f) children) = f <$> omap as_card children.
Proof.
  induction children as [|n children IH]; [reflexivity|].
  destruct n; simpl; [exact IH | exact IH | f_equal; exact IH].
Qed.

Lemma program_cards_for_each f w :
  program_cards (for_each_card f w) = f <$> program_cards w.
Proof.
  unfold program_cards, for_each_card. simpl.
  destruct (programs_container w) as [children|]; simpl; [|reflexivity].
  apply omap_as_card_map.
Qed.

Lemma showToast_programs_container m t w :
  programs_container (showToast m t w) = programs_container w.
Proof. unfold showToast. destruct (showToast_defined w); reflexivity. Qed.

Lemma showToast_requests m t w : requests (showToast m t w) = requests w.
Proof. unfold showToast. destruct (showToast_defined w); reflexivity. Qed.

Lemma showToast_program_cards m t w : program_cards (showToast m t w) = program_cards w.
Proof. unfold program_cards. rewrite showToast_programs_container. reflexivity. Qed.

Lemma showToast_getElementById id m t w :
  getElementById id (showToast m t w) = getElementById id w.
Proof.
  unfold getElementById, document_ids.
  rewrite showToast_program_cards, showToast_programs_container. reflexivity.
Qed.

(* ===================================================================== *)
(** ** The poll-driven update *)
(* ===================================================================== *)

Section UpdateCard.

Variables programRunning currentProgramId : jsval.

(** Split a card into its fields and the update into its branches. *)
Ltac update_cases c :=
  unfold update_card; cbv zeta; rewrite truthy_js_and; cbn [truthy];
  generalize (strict_eq (JStr (data_program_id c)) currentProgramId);
  intros same;
  destruct c as [? ? ? [[? [?|]]|] ? ? ? ? ? ? ? ? [?|] [?|] ? ?];
  destruct (truthy programRunning), same;
  cbn -[classList_add classList_remove classList_contains].

Lemma update_card_id c :
  data_program_id (update_card programRunning currentProgramId c) = data_program_id c.
Proof. update_cases c; reflexivity. Qed.

Lemma update_card_styled c :
  styled_active (update_card programRunning currentProgramId c)
  = card_is_active programRunning currentProgramId c.
Proof.
  unfold styled_active, card_is_active.
  update_cases c; first [apply classList_contains_add | apply classList_contains_remove].
Qed.

Lemma update_card_indicator c :
  shows_indicator (update_card programRunning currentProgramId c)
  = card_is_active programRunning currentProgramId c
    && bool_decide (is_Some (program_header c)).
Proof.
  unfold shows_indicator, card_is_active.
  update_cases c; reflexivity.
Qed.

Lemma update_card_has_header c :
  is_Some (program_header (update_card programRunning currentProgramId c))
  <-> is_Some (program_header c).
Proof.
  update_cases c; split; intros [x Hx]; try discriminate; eauto.
Qed.

Lemma update_card_buttons c startBtn stopBtn :
  btn_start (update_card programRunning currentProgramId c) = Some startBtn ->
  btn_stop (update_card programRunning currentProgramId c) = Some stopBtn ->
  if card_is_active programRunning currentProgramId c
  then is_disabled startBtn = true /\ is_enabled stopBtn = true
  else if truthy programRunning
  then is_disabled startBtn = true /\ is_disabled stopBtn = true
  else is_enabled startBtn = true /\ is_disabled stopBtn = true.
Proof.
  unfold card_is_active.
  update_cases c; intros H1 H2; try discriminate; inversion H1; inversion H2; subst;
    auto using is_disabled_disable, is_enabled_enable.
Qed.

End UpdateCard.

(** [is_running] says what it is meant to: the flag is truthy and the
    current id is that very string. *)
Lemma is_running_spec state programId :
  is_running state programId = true <->
  truthy (field state "program_running") = true /\
  field state "current_program_id" = JStr programId.
Proof.
  unfold is_running. rewrite andb_true_iff, strict_eq_JStr_l. reflexivity.
Qed.

Lemma updateProgramsUI_object props w :
  updateProgramsUI (JObj props) w
  = Normal (for_each_card (update_card (field (JObj props) "program_running")
                                       (field (JObj props) "current_program_id")) w).
Proof. reflexivity. Qed.

(** A tick whose response is successful and carries an object runs
    [updateProgramsUI] on it. *)
Lemma fetchProgramState_settled_object status props w :
  response_ok status = true ->
  Normal (fetchProgramState_settled (HttpResponse status (JsonOk (JObj props))) w)
  = updateProgramsUI (JObj props) w.
Proof. intros Hok. unfold fetchProgramState_settled. rewrite Hok. reflexivity. Qed.

(* ===================================================================== *)
(** ** Rendered cards *)
(* ===================================================================== *)

Lemma strict_eq_sym a b : strict_eq a b = strict_eq b a.
Proof.
  destruct a, b; simpl; try reflexivity.
  - destruct b, b0; reflexivity.
  - apply Z.eqb_sym.
  - apply String.eqb_sym.
Qed.

Lemma build_card_shape n zm programId program props c :
  build_card n zm programId program (JObj props) = Normal c ->
  card_node c = n /\
  data_program_id c = programId /\
  styled_active c = is_running (JObj props) programId /\
  shows_indicator c = is_running (JObj props) programId /\
  is_Some (program_header c) /\
  has_start c = true /\ has_stop c = true.
Proof.
  unfold build_card. rewrite get_prop_object.
  change (default JUndefined (assoc "program_running" props))
    with (field (JObj props) "program_running").
  cbn [mbind completion_bind bind].
  destruct (buildMonthsGrid _) as [monthsHtml|]; [|discriminate].
  cbn [mbind completion_bind bind].
  destruct (buildZonesGrid _ _) as [zonesHtml|]; [|discriminate].
  cbn [mbind completion_bind bind].
  intros H. injection H as <-.
  unfold styled_active, shows_indicator, is_running, has_start, has_stop.
  rewrite truthy_js_and. cbn [truthy].
  rewrite (strict_eq_sym (JStr programId)).
  cbn [card_node data_program_id card_classList program_header hdr_indicator
       btn_start btn_stop].
  destruct (truthy (field (JObj props) "program_running") && _); simpl; eauto 10.
Qed.

Lemma omap_as_card_app (l1 l2 : list node) :
  omap as_card (l1 ++ l2) = omap as_card l1 ++ omap as_card l2.
Proof.
  induction l1 as [|n l1 IH]; [reflexivity|].
  destruct n; simpl; [exact IH | exact IH | f_equal; exact IH].
Qed.

Lemma program_cards_appendChild c w :
  program_cards (appendChild c w)
  = match programs_container w with
    | Some _ => program_cards w ++ [c]
    | None => []
    end.
Proof.
  unfold program_cards, appendChild. simpl.
  destruct (programs_container w) as [children|]; simpl; [|reflexivity].
  apply omap_as_card_app.
Qed.

Section RenderInvariant.

Variable state : jsval.
Variable P : card -> Prop.
Hypothesis built :
  forall n zm programId program c,
    build_card n zm programId program state = Normal c -> P c.

Lemma render_cards_invariant programIds : forall programs w,
  Forall P (program_cards w) ->
  Forall P (program_cards (render_cards programIds state programs w).1.2).
Proof.
  induction programIds as [|programId rest IH]; intros programs w Hw; [exact Hw|].
  cbn [render_cards].
  destruct (negb (truthy (field programs programId))); [apply IH; exact Hw|].
  match goal with |- context [build_card ?n ?zm ?i ?p state] =>
    destruct (build_card n zm i p state) as [c|e] eqn:Hc end; [|exact Hw].
  apply IH. rewrite program_cards_appendChild.
  cbn [programs_container set_next_node].
  destruct (programs_container w) eqn:Hcont; [|constructor].
  apply Forall_app. split.
  - unfold program_cards in *. cbn [programs_container set_next_node]. exact Hw.
  - constructor; [|constructor]. eapply built. exact Hc.
Qed.

Lemma renderProgramCards_invariant programs w :
  Forall P (program_cards (renderProgramCards programs state w).1.2).
Proof.
  unfold renderProgramCards.
  destruct (programs_container w) eqn:Hcont.
  - destruct (negb (truthy programs) || _).
    + constructor.
    + apply render_cards_invariant. constructor.
  - unfold program_cards. cbn [fst snd]. rewrite Hcont. constructor.
Qed.

End RenderInvariant.

(* ===================================================================== *)
(** ** Elements by id *)
(* ===================================================================== *)

Section ForEachCard.

Variable f : card -> card.
Hypothesis f_node : forall c, card_node (f c) = card_node c.
Hypothesis f_id : forall c, data_program_id (f c) = data_program_id c.

Lemma at_node_node n c : card_node (at_node n f c) = card_node c.
Proof. unfold at_node. destruct (Nat.eqb _ _); [apply f_node | reflexivity]. Qed.

Lemma at_node_id n c : data_program_id (at_node n f c) = data_program_id c.
Proof. unfold at_node. destruct (Nat.eqb _ _); [apply f_id | reflexivity]. Qed.

Lemma ids_of_at_node n c : ids_of (at_node n f c) = ids_of c.
Proof.
  unfold ids_of, icon_id, switch_id. rewrite at_node_node, at_node_id. reflexivity.
Qed.

Lemma document_ids_at_node n w :
  document_ids (for_each_card (at_node n f) w) = document_ids w.
Proof.
  unfold document_ids. rewrite program_cards_for_each.
  unfold for_each_card. cbn [programs_container set_programs_container].
  destruct (programs_container w) as [children|]; [|reflexivity].
  cbn [fmap option_fmap option_map]. f_equal.
  induction (program_cards w) as [|c cs IH]; [reflexivity|].
  cbn [fmap list_fmap mbind list_bind]. rewrite ids_of_at_node. f_equal. exact IH.
Qed.

Lemma getElementById_at_node id n w :
  getElementById id (for_each_card (at_node n f) w) = getElementById id w.
Proof. unfold getElementById. rewrite document_ids_at_node. reflexivity. Qed.

Lemma find_node_at_node n (cs : list card) :
  List.find (fun c => Nat.eqb (card_node c) n) (at_node n f <$> cs)
  = f <$> List.find (fun c => Nat.eqb (card_node c) n) cs.
Proof.
  induction cs as [|c cs IH]; [reflexivity|].
  cbn [fmap list_fmap List.find]. rewrite at_node_node.
  destruct (Nat.eqb (card_node c) n) eqn:E; [|exact IH].
  unfold at_node. rewrite E. reflexivity.
Qed.

End ForEachCard.

(** The ids of a card are told apart by their prefixes, and none is the
    id of the container. *)
Lemma getElementById_kind programId w :
  (getElementById ("auto-switch-" +:+ programId) w = None \/
   exists n, getElementById ("auto-switch-" +:+ programId) w = Some (SwitchOf n)) /\
  (getElementById ("auto-icon-" +:+ programId) w = None \/
   exists n, getElementById ("auto-icon-" +:+ programId) w = Some (IconOf n)).
Proof.
  unfold getElementById, document_ids.
  destruct (programs_container w) as [children|]; [|split; left; reflexivity].
  cbn [List.find fst].
  change (String.eqb ("auto-switch-" +:+ programId) "programs-container") with false.
  change (String.eqb ("auto-icon-" +:+ programId) "programs-container") with false.
  induction (program_cards w) as [|c cs [IHs IHi]]; [split; left; reflexivity|].
  cbn [mbind list_bind ids_of app List.find fst snd].
  unfold icon_id, switch_id.
  change (String.eqb ("auto-switch-" +:+ programId) ("auto-icon-" +:+ data_program_id c))
    with false.
  change (String.eqb ("auto-icon-" +:+ programId) ("auto-switch-" +:+ data_program_id c))
    with false.
  split.
  - destruct (String.eqb _ _); [right; eexists; reflexivity | exact IHs].
  - destruct (String.eqb _ _); [right; eexists; reflexivity | exact IHi].
Qed.

Lemma switch_checked_set_checked id value w :
  switch_checked id (set_checked id value w) = (fun _ => value) <$> switch_checked id w.
Proof.
  unfold set_checked, switch_checked.
  destruct (getElementById id w) as [[| |n]|] eqn:E; rewrite ?E; try reflexivity.
  rewrite getElementById_at_node, E by reflexivity.
  rewrite program_cards_for_each, find_node_at_node by reflexivity.
  destruct (List.find _ (program_cards w)); reflexivity.
Qed.

Lemma set_checked_requests id value w : requests (set_checked id value w) = requests w.
Proof. unfold set_checked. destruct (getElementById id w) as [[| |n]|]; reflexivity. Qed.

Lemma switch_checked_showToast id m t w :
  switch_checked id (showToast m t w) = switch_checked id w.
Proof.
  unfold switch_checked. rewrite showToast_getElementById, showToast_program_cards.
  reflexivity.
Qed.

Lemma set_icon_requests id enable w : requests (set_icon id enable w) = requests w.
Proof. unfold set_icon. destruct (getElementById id w) as [[| |n]|]; reflexivity. Qed.

(* ===================================================================== *)
(** ** Buttons a closure holds *)
(* ===================================================================== *)

Section HeldButtons.

Variable f : button -> button.

Lemma with_start_btn_requests startBtn w :
  requests (with_start_btn startBtn f w) = requests w.
Proof. destruct startBtn; reflexivity. Qed.

Lemma with_start_btn_held startBtn w c b :
  c ∈ program_cards (with_start_btn startBtn f w) ->
  Some (card_node c) = startBtn ->
  btn_start c = Some b ->
  exists b0, b = f b0.
Proof.
  intros Hc Hn Hb. destruct startBtn as [n|]; [|discriminate].
  injection Hn as Hn. cbn [with_start_btn] in Hc.
  rewrite program_cards_for_each in Hc.
  apply list_elem_of_fmap in Hc as (c0 & Hceq & _). subst c.
  rewrite at_node_node in Hn by reflexivity.
  unfold at_node in Hb. rewrite Hn, Nat.eqb_refl in Hb. cbn in Hb.
  destruct (btn_start c0) as [b0|]; [|discriminate].
  injection Hb as <-. eauto.
Qed.

Lemma with_stop_btns_cons n stopBtns w :
  with_stop_btns (n :: stopBtns) f w
  = with_stop_btns stopBtns f (for_each_card (at_node n (on_stop_btn f)) w).
Proof. reflexivity. Qed.

Lemma with_stop_btns_requests stopBtns : forall w,
  requests (with_stop_btns stopBtns f w) = requests w.
Proof.
  induction stopBtns as [|n stopBtns IH]; intros w; [reflexivity|].
  rewrite with_stop_btns_cons, IH. reflexivity.
Qed.

(** Every card after the loop is a card from before it, with the same
    identity and a stop button if it had one. *)
Lemma with_stop_btns_origin stopBtns : forall w c,
  c ∈ program_cards (with_stop_btns stopBtns f w) ->
  exists c0, c0 ∈ program_cards w /\ card_node c0 = card_node c /\
             has_stop c0 = has_stop c /\
             (card_node c ∉ stopBtns -> btn_stop c = btn_stop c0).
Proof.
  induction stopBtns as [|n stopBtns IH]; intros w c Hc.
  - exists c. auto.
  - rewrite with_stop_btns_cons in Hc.
    apply IH in Hc as (c1 & Hc1 & Hnode & Hhas & Hsame).
    rewrite program_cards_for_each in Hc1.
    apply list_elem_of_fmap in Hc1 as (c0 & -> & Hc0).
    exists c0. split; [exact Hc0|].
    rewrite at_node_node in Hnode by reflexivity. split; [exact Hnode|]. split.
    + rewrite <- Hhas. unfold at_node, has_stop.
      destruct (Nat.eqb (card_node c0) n); [|reflexivity].
      cbn. destruct (btn_stop c0); reflexivity.
    + intros Hnotin. rewrite not_elem_of_cons in Hnotin. destruct Hnotin as [Hne Hnotin].
      rewrite (Hsame Hnotin). unfold at_node.
      destruct (Nat.eqb (card_node c0) n) eqn:E; [|reflexivity].
      apply Nat.eqb_eq in E. congruence.
Qed.

(** The stop button of a card among the held ones went through [f]. *)
Lemma with_stop_btns_held stopBtns : forall w c b,
  c ∈ program_cards (with_stop_btns stopBtns f w) ->
  card_node c ∈ stopBtns ->
  btn_stop c = Some b ->
  exists b0, b = f b0.
Proof.
  induction stopBtns as [|n stopBtns IH]; intros w c b Hc Hin Hb.
  - apply elem_of_nil in Hin. contradiction.
  - rewrite with_stop_btns_cons in Hc.
    destruct (decide (card_node c ∈ stopBtns)) as [Hin'|Hnotin]; [eapply IH; eassumption|].
    apply elem_of_cons in Hin as [Heq|Hin']; [|contradiction].
    apply with_stop_btns_origin in Hc as (c1 & Hc1 & Hnode & _ & Hsame).
    rewrite (Hsame Hnotin) in Hb.
    rewrite program_cards_for_each in Hc1.
    apply list_elem_of_fmap in Hc1 as (c0 & -> & _).
    rewrite at_node_node in Hnode by reflexivity.
    unfold at_node in Hb.
    replace (Nat.eqb (card_node c0) n) with true in Hb
      by (symmetry; apply Nat.eqb_eq; congruence).
    cbn in Hb. destruct (btn_stop c0) as [b0|]; [|discriminate].
    injection Hb as <-. eauto.
Qed.

End HeldButtons.

Lemma query_stop_btns_complete w c :
  c ∈ program_cards w -> has_stop c = true -> card_node c ∈ query_stop_btns w.
Proof.
  intros Hc Hs. unfold query_stop_btns. apply list_elem_of_fmap.
  exists c. split; [reflexivity|].
  apply list_elem_of_In, filter_In. split; [apply list_elem_of_In; exact Hc | exact Hs].
Qed.

(* ===================================================================== *)
(** ** Deleting a program *)
(* ===================================================================== *)

(** C8. [deleteProgram] sends its POST to /delete_program exactly when the
    confirmation is accepted; when it is declined the page state is what
    it was: no request, no change to the document, the globals or the
    stored edit target. *)
Theorem deleteProgram_confirmation programId w :
  deleteProgram false programId w = w /\
  forall confirmed,
    requests (deleteProgram confirmed programId w)
    = requests w ++
      (if confirmed
       then [POST "/delete_program" (Some (JObj [("id", JStr programId)]))]
       else []).
Proof.
  split; [reflexivity|].
  intros [|]; simpl; [reflexivity|]. symmetry. apply app_nil_r.
Qed.

(* ===================================================================== *)
(** ** Toggling the automation of a program *)
(* ===================================================================== *)

Lemma toggleProgramAutomatic_settled_requests programId enable o w :
  requests (toggleProgramAutomatic_settled programId enable o w) = requests w.
Proof.
  unfold toggleProgramAutomatic_settled.
  destruct (read_success o) as [[data [|]]|e]; cbv zeta.
  - destruct (truthy _); cbn [requests set_programsData];
      rewrite set_icon_requests, set_checked_requests, showToast_requests; reflexivity.
  - rewrite set_checked_requests, showToast_requests. reflexivity.
  - rewrite set_checked_requests, showToast_requests. reflexivity.
Qed.

Lemma toggleProgramAutomatic_settled_revert programId enable o w :
  unsuccessful o = true ->
  switch_checked ("auto-switch-" +:+ programId)
    (toggleProgramAutomatic_settled programId enable o w)
  = (fun _ => negb enable) <$> switch_checked ("auto-switch-" +:+ programId) w.
Proof.
  intros Hfail. unfold unsuccessful in Hfail. unfold toggleProgramAutomatic_settled.
  destruct (read_success o) as [[data [|]]|e]; [discriminate| |];
    cbv zeta; rewrite switch_checked_set_checked, switch_checked_showToast; reflexivity.
Qed.



(* ===================================================================== *)
(** ** The action dispatchers: request, optimistic change, rollback *)
(* ===================================================================== *)

Lemma unsuccessful_cases o :
  unsuccessful o = true ->
  (exists data, read_success o = Normal (data, false)) \/ (exists e, read_success o = Throw e).
Proof.
  unfold unsuccessful. destruct (read_success o) as [[data [|]]|e]; [discriminate| |]; eauto.
Qed.

Lemma startProgram_settled_rollback startBtn o w :
  unsuccessful o = true ->
  exists message,
    startProgram_settled startBtn o w
    = with_start_btn startBtn enable (showToast message "error" w).
Proof.
  intros Hfail. unfold startProgram_settled.
  destruct (unsuccessful_cases o Hfail) as [(data & ->)|(e & ->)]; eauto.
Qed.

Lemma stopProgram_settled_rollback stopBtns o w :
  unsuccessful o = true ->
  exists message,
    stopProgram_settled stopBtns o w
    = with_stop_btns stopBtns enable (showToast message "error" w).
Proof.
  intros Hfail. unfold stopProgram_settled.
  destruct (unsuccessful_cases o Hfail) as [(data & ->)|(e & ->)]; eauto.
Qed.

Lemma deleteProgram_settled_unsuccessful o w :
  unsuccessful o = true ->
  exists message, deleteProgram_settled o w = showToast message "error" w.
Proof.
  intros Hfail. unfold deleteProgram_settled.
  destruct (unsuccessful_cases o Hfail) as [(data & ->)|(e & ->)]; eauto.
Qed.




(* ===================================================================== *)
(** ** Loading: all three responses or none *)
(* ===================================================================== *)

Lemma first_rejection_None order result :
  first_rejection order result = None ->
  forall s, In s order -> exists v, result s = Normal v.
Proof.
  induction order as [|s0 order IH]; intros Hnone s Hin; [destruct Hin|].
  cbn [first_rejection] in Hnone.
  destruct (result s0) as [v|e] eqn:E; [|discriminate].
  destruct Hin as [<-|Hin]; eauto.
Qed.

Lemma promise_all_rejects order result s e :
  result s = Throw e -> exists e', promise_all order result = Throw e'.
Proof.
  intros Hs. unfold promise_all.
  destruct (first_rejection _ result) as [e'|] eqn:E; [eauto|].
  destruct (first_rejection_None _ _ E s) as (v & Hv).
  - apply in_or_app. right. destruct s; simpl; auto.
  - congruence.
Qed.

Lemma slot_result_http_failed s o :
  http_failed o = true -> slot_result s o = Throw (new_Error (slot_error s)).
Proof.
  destruct o as [e|status body]; [discriminate|]. simpl. intros ->. reflexivity.
Qed.

Lemma load_catch_container e w :
  programs_container (load_catch e w)
  = (fun _ => [EmptyState "Errore nel caricamento dei programmi" (err_message e)
                          "Riprova" CallLoadUserSettingsAndPrograms])
    <$> programs_container w.
Proof.
  unfold load_catch. cbv zeta. rewrite showToast_programs_container.
  destruct (programs_container w) eqn:E; [reflexivity|].
  rewrite showToast_programs_container, E. reflexivity.
Qed.

Lemma load_catch_requests e w : requests (load_catch e w) = requests w.
Proof.
  unfold load_catch. cbv zeta.
  destruct (programs_container _); cbn; apply showToast_requests.
Qed.



(* ===================================================================== *)
(** ** Every card of a reachable page has its header and buttons *)
(* ===================================================================== *)

Create HintDb shaped.

Lemma page_shaped_cards w w' :
  program_cards w' = program_cards w -> page_shaped w -> page_shaped w'.
Proof. unfold page_shaped. intros ->. auto. Qed.

Lemma page_shaped_no_cards w : program_cards w = [] -> page_shaped w.
Proof. unfold page_shaped. intros ->. constructor. Qed.

Lemma page_shaped_for_each f w :
  (forall c, card_shaped c = true -> card_shaped (f c) = true) ->
  page_shaped w -> page_shaped (for_each_card f w).
Proof.
  unfold page_shaped. intros Hf Hw. rewrite program_cards_for_each.
  apply Forall_fmap. eapply Forall_impl; [exact Hw|]. exact Hf.
Qed.

Lemma at_node_shaped n f c :
  (forall c, card_shaped c = true -> card_shaped (f c) = true) ->
  card_shaped c = true -> card_shaped (at_node n f c) = true.
Proof. intros Hf Hc. unfold at_node. destruct (Nat.eqb _ _); auto. Qed.

Lemma update_card_shaped programRunning currentProgramId c :
  card_shaped c = true -> card_shaped (update_card programRunning currentProgramId c) = true.
Proof.
  unfold card_shaped, has_start, has_stop, update_card. cbv zeta.
  generalize (truthy (js_and programRunning
                        (JBool (strict_eq (JStr (data_program_id c)) currentProgramId)))).
  intros active.
  destruct c as [? ? ? [[? [?|]]|] ? ? ? ? ? ? ? ? [?|] [?|] ? ?];
    destruct active, (truthy programRunning); cbn; auto.
Qed.

Lemma on_start_btn_shaped f c : card_shaped c = true -> card_shaped (on_start_btn f c) = true.
Proof.
  unfold card_shaped, has_start, has_stop, on_start_btn.
  destruct c as [? ? ? [?|] ? ? ? ? ? ? ? ? [?|] [?|] ? ?]; cbn; auto.
Qed.

Lemma on_stop_btn_shaped f c : card_shaped c = true -> card_shaped (on_stop_btn f c) = true.
Proof.
  unfold card_shaped, has_start, has_stop, on_stop_btn.
  destruct c as [? ? ? [?|] ? ? ? ? ? ? ? ? [?|] [?|] ? ?]; cbn; auto.
Qed.

Lemma build_card_shaped n zm programId program state c :
  build_card n zm programId program state = Normal c -> card_shaped c = true.
Proof.
  unfold build_card.
  destruct (get_prop state "program_running") as [program_running|]; [|discriminate].
  cbn [mbind completion_bind bind].
  destruct (buildMonthsGrid _) as [monthsHtml|]; [|discriminate].
  cbn [mbind completion_bind bind].
  destruct (buildZonesGrid _ _) as [zonesHtml|]; [|discriminate].
  cbn [mbind completion_bind bind].
  intros H. injection H as <-. reflexivity.
Qed.

Lemma page_shaped_showToast m t w : page_shaped w -> page_shaped (showToast m t w).
Proof. apply page_shaped_cards, showToast_program_cards. Qed.

Lemma page_shaped_with_start_btn b f w :
  page_shaped w -> page_shaped (with_start_btn b f w).
Proof.
  destruct b as [n|]; [|auto]. apply page_shaped_for_each.
  intros c. apply at_node_shaped, on_start_btn_shaped.
Qed.

Lemma page_shaped_with_stop_btns bs f : forall w,
  page_shaped w -> page_shaped (with_stop_btns bs f w).
Proof.
  induction bs as [|n bs IH]; intros w Hw; [exact Hw|].
  apply IH, page_shaped_for_each; [|exact Hw].
  intros c. apply at_node_shaped, on_stop_btn_shaped.
Qed.

Lemma page_shaped_set_checked id v w : page_shaped w -> page_shaped (set_checked id v w).
Proof.
  intros Hw. unfold set_checked. destruct (getElementById id w) as [[| |n]|]; auto.
  apply page_shaped_for_each; [|exact Hw]. intros c. apply at_node_shaped. auto.
Qed.

Lemma page_shaped_set_icon id v w : page_shaped w -> page_shaped (set_icon id v w).
Proof.
  intros Hw. unfold set_icon. destruct (getElementById id w) as [[|n|]|]; auto.
  apply page_shaped_for_each; [|exact Hw]. intros c. apply at_node_shaped. auto.
Qed.

Lemma page_shaped_addGlobalAutomationStatus v w :
  page_shaped w -> page_shaped (addGlobalAutomationStatus v w).
Proof.
  apply page_shaped_cards. unfold addGlobalAutomationStatus. cbv zeta.
  destruct (page_title _); reflexivity.
Qed.

Lemma page_shaped_fetch r k w : page_shaped w -> page_shaped (fetch r k w).
Proof. apply page_shaped_cards. reflexivity. Qed.

Lemma page_shaped_fetchProgramState w : page_shaped w -> page_shaped (fetchProgramState w).
Proof. apply page_shaped_fetch. Qed.

Lemma page_shaped_set_programsData x w :
  page_shaped w -> page_shaped (set_programsData x w).
Proof. apply page_shaped_cards. reflexivity. Qed.

Lemma page_shaped_loadUserSettingsAndPrograms w :
  page_shaped (loadUserSettingsAndPrograms w).
Proof.
  apply page_shaped_no_cards. unfold loadUserSettingsAndPrograms, program_cards.
  destruct (programs_container w) eqn:E; cbn; [reflexivity|]. rewrite E. reflexivity.
Qed.

Lemma page_shaped_load_catch e w : page_shaped (load_catch e w).
Proof.
  apply page_shaped_no_cards. unfold program_cards. rewrite load_catch_container.
  destruct (programs_container w); reflexivity.
Qed.

Lemma page_shaped_renderProgramCards programs state w :
  page_shaped (renderProgramCards programs state w).1.2.
Proof.
  apply renderProgramCards_invariant.
  intros n zm programId program c. apply build_card_shaped.
Qed.

Lemma page_shaped_load_then settings programs state w :
  page_shaped w -> page_shaped (load_then settings programs state w).1.
Proof.
  intros Hw. unfold load_then.
  destruct (get_prop settings _) as [v|e]; [|exact Hw]. cbv zeta.
  match goal with |- context [renderProgramCards ?p ?s ?w0] =>
    pose proof (page_shaped_renderProgramCards p s w0) as H;
    destruct (renderProgramCards p s w0) as [[programs' w'] thrown] end.
  exact H.
Qed.

Lemma page_shaped_load_settled order settings programs state w :
  page_shaped w -> page_shaped (load_settled order settings programs state w).
Proof.
  intros Hw. unfold load_settled.
  destruct (promise_all _ _) as [[[a b] c]|e]; [|apply page_shaped_load_catch].
  pose proof (page_shaped_load_then a b c w Hw) as H.
  destruct (load_then a b c w) as [w' [e|]]; [apply page_shaped_load_catch | exact H].
Qed.

Lemma page_shaped_fetchProgramState_settled o w :
  page_shaped w -> page_shaped (fetchProgramState_settled o w).
Proof.
  intros Hw. unfold fetchProgramState_settled, updateProgramsUI.
  destruct o as [e|status [state|e]]; auto; destruct (negb _); auto.
  destruct (truthy state && _); auto.
  destruct (get_prop state "current_program_id"); cbn; auto.
  destruct (get_prop state "program_running"); cbn; auto.
  apply page_shaped_for_each; [|exact Hw]. intros c. apply update_card_shaped.
Qed.

#[local] Hint Resolve page_shaped_showToast page_shaped_with_start_btn
  page_shaped_with_stop_btns page_shaped_set_checked page_shaped_set_icon
  page_shaped_addGlobalAutomationStatus page_shaped_fetchProgramState
  page_shaped_fetch page_shaped_set_programsData
  page_shaped_loadUserSettingsAndPrograms page_shaped_load_catch
  page_shaped_load_settled page_shaped_fetchProgramState_settled : shaped.

Lemma page_shaped_settle k d w w' :
  settle k d w = Some w' -> page_shaped w -> page_shaped w'.
Proof.
  destruct k, d; cbn [settle]; intros H Hw; try discriminate; injection H as <-;
    auto with shaped.
  - unfold toggleGlobalAutomation_settled.
    destruct (read_success o) as [[data [|]]|e]; auto with shaped.
  - unfold startProgram_settled.
    destruct (read_success o) as [[data [|]]|e]; cbv zeta; auto with shaped.
  - unfold stopProgram_settled.
    destruct (read_success o) as [[data [|]]|e]; cbv zeta; auto with shaped.
  - unfold deleteProgram_settled.
    destruct (read_success o) as [[data [|]]|e]; cbv zeta; auto with shaped.
  - unfold toggleProgramAutomatic_settled.
    destruct (read_success o) as [[data [|]]|e]; cbv zeta; [destruct (truthy _)| |];
      auto 8 with shaped.
Qed.

Lemma page_shaped_call a answer w : page_shaped w -> page_shaped (call a answer w).
Proof.
  intros Hw. destruct a; cbn [call].
  - apply page_shaped_loadUserSettingsAndPrograms.
  - unfold loadPage. eapply page_shaped_cards; [|exact Hw]. reflexivity.
  - unfold startProgram. cbv zeta. auto with shaped.
  - unfold stopProgram. cbv zeta. auto with shaped.
  - unfold editProgram, loadPage. eapply page_shaped_cards; [|exact Hw]. reflexivity.
  - unfold deleteProgram. destruct (negb answer); auto with shaped.
  - unfold toggleProgramAutomatic. auto with shaped.
  - unfold toggleGlobalAutomation. auto with shaped.
Qed.

Lemma page_shaped_handle e w : page_shaped w -> page_shaped (handle e w).
Proof.
  intros Hw. destruct e as [| |h|i d|a answer]; cbn [handle].
  - eapply page_shaped_cards; [|apply (page_shaped_loadUserSettingsAndPrograms w)].
    reflexivity.
  - destruct (pagehide_listener w); [|exact Hw].
    unfold cleanupViewProgramsPage, stopProgramStatusPolling.
    destruct (programStatusInterval w); exact Hw.
  - destruct (intervals w !! h) as [[[] delay]|]; auto with shaped.
  - destruct (pending w !! i) as [k|]; [|exact Hw].
    destruct (settle k d _) as [w'|] eqn:E; [|exact Hw].
    eapply page_shaped_settle; [exact E|]. exact Hw.
  - apply page_shaped_call. exact Hw.
Qed.

(** On every page the script can produce, each card has its header and
    both buttons. *)
Lemma reachable_page_shaped w : reachable w -> page_shaped w.
Proof.
  induction 1 as [a b c|e w Hw IH]; [|apply page_shaped_handle; exact IH].
  apply page_shaped_no_cards. destruct a, b, c; reflexivity.
Qed.

Lemma reachable_run es : forall w, reachable w -> reachable (run es w).
Proof.
  induction es as [|e es IH]; intros w Hw; [exact Hw|].
  apply IH, reachable_handle, Hw.
Qed.

Lemma reachable_sample_page : reachable sample_page.
Proof. apply reachable_run, reachable_loaded. Qed.

Lemma card_shaped_parts c :
  card_shaped c = true ->
  is_Some (program_header c) /\ is_Some (btn_start c) /\ is_Some (btn_stop c).
Proof.
  unfold card_shaped, has_start, has_stop.
  destruct (program_header c), (btn_start c), (btn_stop c); try discriminate; eauto.
Qed.

Lemma updateProgramsUI_shaped props w c :
  reachable w ->
  c ∈ program_cards
        (for_each_card (update_card (field (JObj props) "program_running")
                                    (field (JObj props) "current_program_id")) w) ->
  card_shaped c = true.
Proof.
  intros Hw Hc. rewrite program_cards_for_each in Hc.
  apply list_elem_of_fmap in Hc as (c0 & -> & Hc0).
  apply update_card_shaped.
  pose proof (reachable_page_shaped w Hw) as Hshaped.
  eapply List.Forall_forall in Hshaped; [exact Hshaped|].
  apply list_elem_of_In. exact Hc0.
Qed.

(* ===================================================================== *)
(** ** Active-program detection *)
(* ===================================================================== *)


Example sample_page_cards :
  (fun c => (data_program_id c, info_cadenza c, styled_active c, shows_indicator c))
    <$> program_cards sample_page
  = [ ("1", "Ogni giorno", true, true); ("2", "Ogni 3 giorni", false, false) ].
Proof. vm_compute. reflexivity. Qed.

Example sample_page_pending :
  pending sample_page = [KFetchProgramState] /\
  programStatusInterval sample_page = Some 1%positive /\
  List.map req_url (requests sample_page)
  = [ "/data/user_settings.json"; "/data/program.json"; "/get_program_state";
      "/get_program_state" ].
Proof. vm_compute. auto. Qed.

Example sample_page_zones :
  zones_grid <$> program_cards sample_page
  = [ zone_tag_html "Orto" "10" +:+ zone_tag_html "Zona 2" "5"; no_zones_tag ].
Proof. vm_compute. reflexivity. Qed.

Example sample_page_idle :
  exists w',
    updateProgramsUI (JObj sample_state_idle) sample_page = Normal w' /\
    (fun c => (styled_active c, is_enabled <$> btn_start c, is_disabled <$> btn_stop c))
      <$> program_cards w'
    = [ (false, Some true, Some true); (false, Some true, Some true) ].
Proof. eexists. split; [reflexivity|]. vm_compute. reflexivity. Qed.


(* ===================================================================== *)
(** ** Start and stop controls on a tick *)
(* ===================================================================== *)



(* ===================================================================== *)
(** ** What leaves the poller alone *)
(* ===================================================================== *)

Create Rewrite HintDb frame.

(** Rewrite with the frame lemmas collected so far, splitting the
    branches of the handler on the way. *)
Ltac frame :=
  repeat first
    [ reflexivity
    | progress autorewrite with frame
    | match goal with
      | |- context [match ?x with _ => _ end] => destruct x
      end ].

Lemma polling_showToast m t w : polling_of (showToast m t w) = polling_of w.
Proof. unfold showToast. frame. Qed.
#[local] Hint Rewrite polling_showToast : frame.

Lemma polling_fetch r k w : polling_of (fetch r k w) = polling_of w.
Proof. reflexivity. Qed.
#[local] Hint Rewrite polling_fetch : frame.

Lemma polling_for_each_card f w : polling_of (for_each_card f w) = polling_of w.
Proof. reflexivity. Qed.
#[local] Hint Rewrite polling_for_each_card : frame.

Lemma polling_set_checked id v w : polling_of (set_checked id v w) = polling_of w.
Proof. unfold set_checked. frame. Qed.
#[local] Hint Rewrite polling_set_checked : frame.

Lemma polling_set_icon id v w : polling_of (set_icon id v w) = polling_of w.
Proof. unfold set_icon. frame. Qed.
#[local] Hint Rewrite polling_set_icon : frame.

Lemma polling_set_programsData x w : polling_of (set_programsData x w) = polling_of w.
Proof. reflexivity. Qed.
#[local] Hint Rewrite polling_set_programsData : frame.

Lemma polling_set_programs_container x w :
  polling_of (set_programs_container x w) = polling_of w.
Proof. reflexivity. Qed.
#[local] Hint Rewrite polling_set_programs_container : frame.

Lemma polling_set_zoneNameMap x w : polling_of (set_zoneNameMap x w) = polling_of w.
Proof. reflexivity. Qed.
#[local] Hint Rewrite polling_set_zoneNameMap : frame.

Lemma polling_with_start_btn b f w : polling_of (with_start_btn b f w) = polling_of w.
Proof. unfold with_start_btn. frame. Qed.
#[local] Hint Rewrite polling_with_start_btn : frame.

Lemma polling_with_stop_btns bs f : forall w, polling_of (with_stop_btns bs f w) = polling_of w.
Proof.
  induction bs as [|n bs IH]; intros w; [reflexivity|].
  rewrite with_stop_btns_cons, IH. reflexivity.
Qed.
#[local] Hint Rewrite polling_with_stop_btns : frame.

Lemma polling_addGlobalAutomationStatus v w :
  polling_of (addGlobalAutomationStatus v w) = polling_of w.
Proof. unfold addGlobalAutomationStatus. cbv zeta. frame. Qed.
#[local] Hint Rewrite polling_addGlobalAutomationStatus : frame.

Lemma polling_render_cards ids state : forall programs w,
  polling_of (render_cards ids state programs w).1.2 = polling_of w.
Proof.
  induction ids as [|programId rest IH]; intros programs w; [reflexivity|].
  cbn [render_cards].
  destruct (negb (truthy (field programs programId))); [apply IH|].
  match goal with |- context [build_card ?n ?zm ?i ?p state] =>
    destruct (build_card n zm i p state) as [c|e] end; [|reflexivity].
  rewrite IH. reflexivity.
Qed.

Lemma polling_renderProgramCards programs state w :
  polling_of (renderProgramCards programs state w).1.2 = polling_of w.
Proof.
  unfold renderProgramCards.
  destruct (programs_container w); [|reflexivity].
  destruct (negb (truthy programs) || _); [reflexivity|].
  rewrite polling_render_cards. reflexivity.
Qed.

Lemma polling_load_catch e w : polling_of (load_catch e w) = polling_of w.
Proof. unfold load_catch. cbv zeta. destruct (programs_container _); frame. Qed.
#[local] Hint Rewrite polling_load_catch : frame.

Lemma polling_load_then settings programs state w :
  polling_of (load_then settings programs state w).1 = polling_of w.
Proof.
  unfold load_then. destruct (get_prop settings _) as [v|e]; [|reflexivity].
  cbv zeta.
  match goal with |- context [renderProgramCards ?p ?s ?w0] =>
    pose proof (polling_renderProgramCards p s w0) as H;
    destruct (renderProgramCards p s w0) as [[programs' w'] thrown] end.
  cbn [fst snd] in *. rewrite polling_set_programsData, H. frame.
Qed.

Lemma polling_load_settled order settings programs state w :
  polling_of (load_settled order settings programs state w) = polling_of w.
Proof.
  unfold load_settled. destruct (promise_all _ _) as [[[a b] c]|e]; [|frame].
  pose proof (polling_load_then a b c w) as H.
  destruct (load_then a b c w) as [w' [e|]]; cbn [fst] in H; frame; exact H.
Qed.
#[local] Hint Rewrite polling_load_settled : frame.

Lemma polling_loadUserSettingsAndPrograms w :
  polling_of (loadUserSettingsAndPrograms w) = polling_of w.
Proof. unfold loadUserSettingsAndPrograms. destruct (programs_container w); reflexivity. Qed.
#[local] Hint Rewrite polling_loadUserSettingsAndPrograms : frame.

Lemma polling_fetchProgramState w : polling_of (fetchProgramState w) = polling_of w.
Proof. reflexivity. Qed.
#[local] Hint Rewrite polling_fetchProgramState : frame.

Lemma polling_fetchProgramState_settled o w :
  polling_of (fetchProgramState_settled o w) = polling_of w.
Proof.
  unfold fetchProgramState_settled, updateProgramsUI.
  destruct o as [e|status [state|e]]; try reflexivity; destruct (negb _); try reflexivity.
  destruct (truthy state && _); [|reflexivity].
  destruct (get_prop state "current_program_id"); cbn; [|reflexivity].
  destruct (get_prop state "program_running"); reflexivity.
Qed.
#[local] Hint Rewrite polling_fetchProgramState_settled : frame.

Lemma polling_settle k d w w' : settle k d w = Some w' -> polling_of w' = polling_of w.
Proof.
  destruct k, d; cbn [settle]; intros H; try discriminate; injection H as <-.
  - unfold toggleGlobalAutomation_settled. destruct (read_success o) as [[data [|]]|e]; frame.
  - frame.
  - frame.
  - unfold startProgram_settled. destruct (read_success o) as [[data [|]]|e]; cbv zeta; frame.
  - unfold stopProgram_settled. destruct (read_success o) as [[data [|]]|e]; cbv zeta; frame.
  - unfold deleteProgram_settled. destruct (read_success o) as [[data [|]]|e]; cbv zeta; frame.
  - unfold toggleProgramAutomatic_settled.
    destruct (read_success o) as [[data [|]]|e]; cbv zeta; [destruct (truthy _)| |]; frame.
Qed.

Lemma polling_call a answer w : polling_of (call a answer w) = polling_of w.
Proof.
  destruct a; cbn [call]; try reflexivity.
  - frame.
  - unfold startProgram. cbv zeta. frame.
  - unfold stopProgram. cbv zeta. frame.
  - unfold deleteProgram. destruct (negb answer); frame.
Qed.

(** Every turn of the event loop other than the page initialisation and
    the teardown leaves the poller as it is. *)
Lemma polling_handle e w :
  is_init e = false -> e <> PageHide -> polling_of (handle e w) = polling_of w.
Proof.
  destruct e as [| |h|i d|a answer]; cbn [handle is_init]; intros Hinit Hhide;
    [discriminate|contradiction| | |apply polling_call].
  - destruct (intervals w !! h) as [[[] delay]|]; reflexivity.
  - destruct (pending w !! i) as [k|]; [|reflexivity].
    destruct (settle k d _) as [w'|] eqn:E; [|reflexivity].
    apply polling_settle in E. exact E.
Qed.

(* ===================================================================== *)
(** ** The life cycle of the poller *)
(* ===================================================================== *)

Lemma polling_of_inv w w' :
  polling_of w' = polling_of w ->
  intervals w' = intervals w /\ programStatusInterval w' = programStatusInterval w /\
  pagehide_listener w' = pagehide_listener w.
Proof. unfold polling_of. intros H. injection H as H1 H2 H3. auto. Qed.

Lemma run_cons e es w : run (e :: es) w = run es (handle e w).
Proof. reflexivity. Qed.

Lemma handle_started_or_stopped e w :
  is_init e = false ->
  poller_started_or_stopped w -> poller_started_or_stopped (handle e w).
Proof.
  intros Hinit (Hl & Hcases).
  assert (e = PageHide \/ e <> PageHide) as [->|Hne]
    by (destruct e; first [left; reflexivity | right; discriminate]).
  - cbn [handle]. rewrite Hl. unfold cleanupViewProgramsPage, stopProgramStatusPolling.
    destruct Hcases as [(h & Hh & Hi)|(Hh & Hi)]; rewrite Hh.
    + split; [exact Hl|]. right. split; [reflexivity|].
      cbn. rewrite Hi. apply delete_singleton_eq.
    + split; [exact Hl|]. right. auto.
  - destruct (polling_of_inv _ _ (polling_handle e w Hinit Hne)) as (Hi & Hh & Hl').
    unfold poller_started_or_stopped. rewrite Hi, Hh, Hl'. split; assumption.
Qed.

Lemma run_started_or_stopped es : forall w,
  no_init es = true ->
  poller_started_or_stopped w -> poller_started_or_stopped (run es w).
Proof.
  induction es as [|e es IH]; intros w Hes Hw; [exact Hw|].
  cbn [no_init forallb] in Hes. apply andb_true_iff in Hes as [He Hes].
  rewrite run_cons. apply IH; [exact Hes|].
  apply handle_started_or_stopped; [|exact Hw].
  destruct (is_init e); [discriminate|reflexivity].
Qed.

Lemma handle_no_timers e w :
  is_init e = false -> intervals w = ∅ -> intervals (handle e w) = ∅.
Proof.
  intros Hinit Hw.
  assert (e = PageHide \/ e <> PageHide) as [->|Hne]
    by (destruct e; first [left; reflexivity | right; discriminate]).
  - cbn [handle]. destruct (pagehide_listener w); [|exact Hw].
    unfold cleanupViewProgramsPage, stopProgramStatusPolling.
    destruct (programStatusInterval w); [|exact Hw].
    cbn. rewrite Hw. apply delete_empty.
  - destruct (polling_of_inv _ _ (polling_handle e w Hinit Hne)) as (Hi & _).
    rewrite Hi. exact Hw.
Qed.

Lemma run_no_timers es : forall w,
  no_init es = true -> intervals w = ∅ -> intervals (run es w) = ∅.
Proof.
  induction es as [|e es IH]; intros w Hes Hw; [exact Hw|].
  cbn [no_init forallb] in Hes. apply andb_true_iff in Hes as [He Hes].
  rewrite run_cons. apply IH; [exact Hes|].
  apply handle_no_timers; [|exact Hw].
  destruct (is_init e); [discriminate|reflexivity].
Qed.

Lemma initializeViewProgramsPage_started w :
  intervals w = ∅ -> poller_started_or_stopped (initializeViewProgramsPage w) /\
  programStatusInterval (initializeViewProgramsPage w) = Some (next_handle w) /\
  intervals (initializeViewProgramsPage w) = {[ next_handle w := poll_timer ]}.
Proof.
  intros Hw.
  assert (programStatusInterval (initializeViewProgramsPage w) = Some (next_handle w)) as Hh.
  { unfold initializeViewProgramsPage, loadUserSettingsAndPrograms.
    destruct (programs_container w); reflexivity. }
  assert (intervals (initializeViewProgramsPage w) = {[ next_handle w := poll_timer ]}) as Hi.
  { unfold initializeViewProgramsPage, loadUserSettingsAndPrograms.
    destruct (programs_container w); cbn; rewrite Hw; reflexivity. }
  split; [|auto]. split; [reflexivity|]. left. eauto.
Qed.



(** Starting from a page without timers matters: a second initialisation
    with no teardown in between overwrites the handle of the first timer,
    which the teardown then cannot clear. *)
Example second_init_without_teardown :
  let w := handle PageHide
             (run [DOMContentLoaded; DOMContentLoaded] (script_loaded true true true)) in
  programStatusInterval w = None /\ intervals w = {[ 1%positive := poll_timer ]}.
Proof. split; [reflexivity|]. vm_compute. reflexivity. Qed.
